(** * f110_gym: the AirSim environment [SIM_f110Env] of sim_f110_core.py

    A shallow embedding of [src/f110_gym/sim_f110_core.py] and the
    properties of its observation pipeline, its steering history and its
    step/reset interface.

    Layout:
    - [Py]        Python values the module computes with: floats (IEEE 754
                  binary64, as [spec_float]), dicts, exceptions, outcomes;
    - [Deque]     [collections.deque(maxlen=...)];
    - [Np]        the numpy calls the module makes ([reshape], slicing,
                  [empty_like], [fromstring]);
    - [Airsim]    the simulator client, an external service, as an
                  interface, and a test double of it;
    - [SIM_f110Env] the methods of the class, in source order;
    - [Samples]   inputs and vocabulary of the statements;
    - [FloatFacts], [DequeFacts], [GeometryTransform], [HistoryBuffer],
      [ImageDecoding], [Polling], [Interface]: the properties. *)

From Stdlib Require Import String Ascii ZArith List Bool Lia PeanoNat.
From Stdlib Require Import Floats.SpecFloat.
Import ListNotations.

Set Implicit Arguments.

(* ================================================================== *)
(** ** Python values *)

Module Py.

(** A Python [float] is an IEEE 754 binary64 number. [spec_float] is the
    Standard Library's specification of such numbers: a sign, a mantissa
    and an exponent, the value of [S754_finite s m e] being
    [(-1)^s * m * 2^e]. *)
Definition float : Type := spec_float.

Definition prec : Z := 53.
Definition emax : Z := 1024.

(** The floats a binary64 really holds. *)
Definition is_binary64 (x : float) : bool := valid_binary prec emax x.

(** [abs(x)], [-x], [x < y], [x > y] on floats. A comparison with a NaN
    is [False]. *)
Definition float_abs (x : float) : float := SFabs x.
Definition float_neg (x : float) : float := SFopp x.
Definition float_lt (x y : float) : bool := SFltb x y.
Definition float_gt (x y : float) : bool := SFltb y x.

(** The literals of the module. [0.05] and [0.06] are the binary64
    numbers nearest to 5/100 and 6/100:
    0x1.999999999999ap-5 and 0x1.eb851eb851eb8p-5. *)
Definition f0_0 : float := S754_zero false.
Definition f0_05 : float := S754_finite false 7205759403792794 (-57).
Definition f0_06 : float := S754_finite false 8646911284551352 (-57).

(** The value of a finite float as a fraction [num / 2^57], for floats of
    exponent [-57], to check the literals against the decimals. *)
Definition num57 (x : float) : Z :=
  match x with
  | S754_finite s m _ => if s then Z.neg m else Z.pos m
  | _ => 0
  end.

(** A raised exception, by the name of its class. *)
Definition exn : Type := string.

(** How a call ends: it returns, it raises, or (for the polling loop,
    which has no bound in the source) it is still looping when the fuel
    given to the model is used up. *)
Inductive outcome (A : Type) : Type :=
| Ok (a : A)
| Raise (e : exn)
| Spin.
Arguments Raise {A} e.
Arguments Spin {A}.

(** Sequencing: the rest runs on the value returned, an exception or a
    loop that has not ended cuts it short. *)
Definition and_then {A B} (o : outcome A) (k : A -> outcome B)
  : outcome B :=
  match o with
  | Ok a => k a
  | Raise e => Raise e
  | Spin => Spin
  end.

(** [list(map(f, xs))] for an [f] that may raise: the first exception
    ends the traversal. *)
Fixpoint map_raise {A B} (f : A -> outcome B) (xs : list A)
  : outcome (list B) :=
  match xs with
  | [] => Ok []
  | x :: xs' =>
      and_then (f x) (fun y =>
      and_then (map_raise f xs') (fun ys => Ok (y :: ys)))
  end.

(** A [dict] with string keys, and [d.get(k)], which answers [None] for
    a key that is absent. *)
Definition dict (V : Type) : Type := list (string * V).

Fixpoint dict_get {V} (d : dict V) (k : string) : option V :=
  match d with
  | [] => None
  | (k', v) :: d' => if String.eqb k' k then Some v else dict_get d' k
  end.

(** [for i in range(n): body], the body a state transformer that does
    not read [i]. *)
Fixpoint for_range {S} (n : nat) (body : S -> S) (s : S) : S :=
  match n with
  | O => s
  | S n' => for_range n' body (body s)
  end.

End Py.

Import Py.

(* ================================================================== *)
(** ** collections.deque *)

Module Deque.

(** [deque(maxlen=n)]: the items, oldest first, and the bound. *)
Record deque (A : Type) : Type := mk_deque {
  items : list A;
  maxlen : nat
}.

(** [deque(maxlen=n)] *)
Definition new (A : Type) (n : nat) : deque A :=
  {| items := []; maxlen := n |}.

(** [d.append(x)]: [x] goes to the right end; a full deque first drops
    the item at its left end. A deque of bound 0 stays empty. *)
Definition append {A} (x : A) (d : deque A) : deque A :=
  match maxlen d with
  | O => d
  | S _ =>
      if length (items d) <? maxlen d
      then {| items := items d ++ [x]; maxlen := maxlen d |}
      else {| items := tl (items d) ++ [x]; maxlen := maxlen d |}
  end.

(** [len(d)] *)
Definition len {A} (d : deque A) : nat := length (items d).

(** Appending the items of [xs] one after the other, first to last. *)
Definition extend {A} (xs : list A) (d : deque A) : deque A :=
  fold_left (fun d x => append x d) xs d.

(** The bound holds. *)
Definition bounded {A} (d : deque A) : Prop := len d <= maxlen d.

End Deque.

(* ================================================================== *)
(** ** numpy *)

Module Np.

(** The numpy calls of the module, on the arrays it makes. A 2-D array of
    floats of shape (n, 3) or (n, 2) is the list of its rows. [reshape]
    with one unknown dimension [-1] raises [ValueError] when the known
    dimensions multiply to 0 or do not divide the size, and otherwise
    takes the quotient for the unknown one. *)

Definition ValueError : exn := "ValueError"%string.

Definition rows3 : Type := list (float * float * float).
Definition rows2 : Type := list (float * float).

(** [np.reshape(pc, (-1, 3))] of a flat list of floats. *)
Fixpoint reshape_m1_3 (pc : list float) : outcome rows3 :=
  match pc with
  | [] => Ok []
  | x :: y :: z :: rest =>
      and_then (reshape_m1_3 rest) (fun rows => Ok ((x, y, z) :: rows))
  | _ => Raise ValueError
  end.

(** [a[..., 0:2]] of an array of shape (n, 3). *)
Definition slice_0_2 (a : rows3) : rows2 :=
  map (fun r => match r with (x, y, _) => (x, y) end) a.

(** [np.empty_like(a)]: an array of the shape of [a]. Its cells are not
    initialised; the model puts 0.0 in them. *)
Definition empty_like (a : rows2) : rows2 :=
  map (fun _ => (f0_0, f0_0)) a.

(** [a[:, 0]] and [a[:, 1]]. *)
Definition col0 (a : rows2) : list float := map fst a.
Definition col1 (a : rows2) : list float := map snd a.

(** [out[:, 0] = v] and [out[:, 1] = v], for [v] of the length of [out]. *)
Definition set_col0 (out : rows2) (v : list float) : rows2 :=
  map (fun rv => (snd rv, snd (fst rv))) (combine out v).
Definition set_col1 (out : rows2) (v : list float) : rows2 :=
  map (fun rv => (fst (fst rv), snd rv)) (combine out v).

(** A 3-D array of uint8: its shape and its buffer, in C order. *)
Record ndarray_u8 : Type := mk_ndarray_u8 {
  shape : Z * Z * Z;
  data : list Byte.byte
}.

(** [np.fromstring(s, dtype=np.uint8)] of a byte string (the binary mode
    of numpy 1.x): one cell per byte. *)
Definition fromstring_u8 (s : list Byte.byte) : list Byte.byte := s.

(** [a.reshape(h, w, -1)] of a 1-D array. A negative [h] or [w] is a
    second unknown dimension, which [reshape] refuses. *)
Definition reshape_h_w_m1 (a : list Byte.byte) (h w : Z)
  : outcome ndarray_u8 :=
  let size := Z.of_nat (length a) in
  if (h <? 0)%Z || (w <? 0)%Z then Raise ValueError
  else if (h * w =? 0)%Z || negb (size mod (h * w) =? 0)%Z
  then Raise ValueError
  else Ok {| shape := (h, w, (size / (h * w))%Z); data := a |}.

End Np.

(* ================================================================== *)
(** ** airsim *)

Module Airsim.

(** [airsim.ImageType] *)
Inductive ImageType : Type :=
| Scene | DepthPlanar | DepthPerspective | DepthVis
| DisparityNormalized | Segmentation | SurfaceNormals | Infrared.

(** [airsim.ImageRequest(camera_name, image_type, pixels_as_float,
    compress)] *)
Record ImageRequest : Type := mk_ImageRequest {
  camera_name : string;
  image_type : ImageType;
  pixels_as_float : bool;
  compress : bool
}.

(** The fields of [airsim.ImageResponse] that the module reads. *)
Record ImageResponse : Type := mk_ImageResponse {
  image_data_uint8 : list Byte.byte;
  height : Z;
  width : Z
}.

(** The field of [airsim.LidarData] that the module reads: a flat list
    x0, y0, z0, x1, y1, z1, ... *)
Record LidarData : Type := mk_LidarData {
  point_cloud : list float
}.

(** The fields of [airsim.CarControls] that the module writes; [None]
    is what [action.get] gives for an absent key. *)
Record CarControls : Type := mk_CarControls {
  throttle : option float;
  steering : option float
}.

(** The simulator behind [airsim.CarClient], an external service: a
    state [W] and what each call of the client does to it and answers.
    [elapse ms] is the simulation running while the caller sleeps. *)
Class Simulator (W : Type) : Type := {
  confirmConnection : W -> W;
  enableApiControl : bool -> W -> W;
  reset : W -> W;
  setCarControls : CarControls -> W -> W;
  getLidarData : W -> LidarData * W;
  simGetImages : list ImageRequest -> W -> list ImageResponse * W;
  elapse : nat -> W -> W
}.

(** A test double: it answers the lidar samples and the image responses
    of two fixed streams, one item per call, and repeats the last one
    for ever; every other call only counts. *)
Record Mock : Type := mk_Mock {
  lidar_script : list LidarData;
  lidar_last : LidarData;
  image_script : list (list ImageResponse);
  image_last : list ImageResponse;
  last_controls : option CarControls;
  reset_calls : nat;
  clock_ms : nat
}.

#[export] Instance Mock_Simulator : Simulator Mock := {
  confirmConnection m := m;
  enableApiControl _ m := m;
  reset m :=
    mk_Mock (lidar_script m) (lidar_last m) (image_script m) (image_last m)
            (last_controls m) (S (reset_calls m)) (clock_ms m);
  setCarControls c m :=
    mk_Mock (lidar_script m) (lidar_last m) (image_script m) (image_last m)
            (Some c) (reset_calls m) (clock_ms m);
  getLidarData m :=
    (hd (lidar_last m) (lidar_script m),
     mk_Mock (tl (lidar_script m)) (lidar_last m) (image_script m)
             (image_last m) (last_controls m) (reset_calls m) (clock_ms m));
  simGetImages _ m :=
    (hd (image_last m) (image_script m),
     mk_Mock (lidar_script m) (lidar_last m) (tl (image_script m))
             (image_last m) (last_controls m) (reset_calls m) (clock_ms m));
  elapse ms m :=
    mk_Mock (lidar_script m) (lidar_last m) (image_script m) (image_last m)
            (last_controls m) (reset_calls m) (ms + clock_ms m)
}.

End Airsim.

(* ================================================================== *)
(** ** class SIM_f110Env *)

Module SIM_f110Env.

Import Deque Np Airsim.

(** The steer dict that [_get_obs] builds:
    [{"angle": _, "steering_angle_velocity": _, "speed": _}]. *)
Record SteeringCommand : Type := mk_steer {
  angle : float;
  steering_angle_velocity : float;
  speed : float
}.

(** The dict that [_get_obs] returns:
    [{'lidar_pc': _, 'steer': _, 'img': _}]. [lidar_pc] holds what
    [process_lidar] returned, an array or [None]. *)
Record Observation : Type := mk_obs {
  lidar_pc : option rows2;
  steer : SteeringCommand;
  img : list ndarray_u8
}.

(** The tuple that [step] returns: [obs, reward, done, info]. *)
Record StepResult : Type := mk_step_result {
  observation : Observation;
  reward : Z;
  done : bool;
  info : dict float
}.

(** *** Methods that touch neither the client nor the history *)

(** [transformLidar(self, lidarData)] *)
Definition transformLidar (lidarData : LidarData) : outcome rows2 :=
  let pc := point_cloud lidarData in
  and_then (reshape_m1_3 pc) (fun pcnp =>
  let pcnp := slice_0_2 pcnp in
  Ok pcnp).

(** [pc_to_np(self, lidarData)] *)
Definition pc_to_np (lidarData : LidarData) : outcome rows2 :=
  let pc := point_cloud lidarData in
  and_then (reshape_m1_3 pc) (fun pcnp =>
  let pcnp := slice_0_2 pcnp in
  let out := empty_like pcnp in
  let out := set_col0 out (col1 pcnp) in
  let out := set_col1 out (col0 pcnp) in
  Ok out).

(** [process_lidar(self, lidarData)]. The body ends after [rads = []]:
    what follows is commented out, the [return] too, so that the call
    evaluates to [None]. *)
Definition process_lidar (lidarData : LidarData) : outcome (option rows2) :=
  and_then (pc_to_np lidarData) (fun lidarData =>
  let lidar_out := empty_like lidarData in
  let rads : list (float * float) := [] in
  Ok None).

(** [get_reward(self)] and [tooclose(self)] *)
Definition get_reward : Z := 0.
Definition tooclose : bool := false.

(** The two lambdas of [_get_imgs]. *)
Definition label_to_func (lbl : string) : ImageRequest :=
  mk_ImageRequest lbl Scene false false.

Definition bytestr_to_np (rep : ImageResponse) : outcome ndarray_u8 :=
  reshape_h_w_m1 (fromstring_u8 (image_data_uint8 rep))
                 (height rep) (width rep).

(** *** The history *)

(** [self.history = deque(maxlen=500)] *)
Definition new_history : deque SteeringCommand := Deque.new _ 500.

(** The test of [add_to_history]:
    [abs(steer["angle"]) > 0.05 and steer["angle"] < -0.05]. *)
Definition history_condition (steer : SteeringCommand) : bool :=
  float_gt (float_abs (angle steer)) f0_05
  && float_lt (angle steer) (float_neg f0_05).

(** [add_to_history(self, steer)], as a function of [self.history], the
    one attribute it reads and writes. *)
Definition add_to_history (steer : SteeringCommand)
    (history : deque SteeringCommand) : deque SteeringCommand :=
  if history_condition steer
  then for_range 40 (Deque.append steer) history
  else history.

(** *** Methods that call the simulator *)

Section Methods.

Context {W : Type} {sim : Simulator W}.

(** [self]: the client and the history. *)
Record Env : Type := mk_env {
  client : W;
  history : deque SteeringCommand
}.

(** A method body: it runs from a state of [self] to an outcome and
    the state it leaves. *)
Definition M (A : Type) : Type := Env -> outcome A * Env.

Definition ret {A} (a : A) : M A := fun s => (Ok a, s).

Definition bind {A B} (m : M A) (k : A -> M B) : M B :=
  fun s =>
    match m s with
    | (Ok a, s') => k a s'
    | (Raise e, s') => (Raise e, s')
    | (Spin, s') => (Spin, s')
    end.

Local Notation "x <- m ;; k" := (bind m (fun x => k))
  (at level 61, m at next level, right associativity).

(** A pure computation that may raise. *)
Definition lift {A} (o : outcome A) : M A := fun s => (o, s).

(** A call of the client that answers, and one that does not. *)
Definition ask {A} (f : W -> A * W) : M A :=
  fun s =>
    let aw := f (client s) in
    (Ok (fst aw), mk_env (snd aw) (history s)).

Definition tell (f : W -> W) : M unit :=
  fun s => (Ok tt, mk_env (f (client s)) (history s)).

(** [time.sleep], in milliseconds. *)
Definition sleep (ms : nat) : M unit := tell (elapse ms).

Definition modify_history
    (f : deque SteeringCommand -> deque SteeringCommand) : M unit :=
  fun s => (Ok tt, mk_env (client s) (f (history s))).

(** [__init__(self)], from the state of the simulator at connection. *)
Definition __init__ (w : W) : Env :=
  let w := confirmConnection w in
  let w := enableApiControl true w in
  mk_env w new_history.

(** [_get_imgs(self, labels=["front_center"])] *)
Definition default_labels : list string := ["front_center"%string].

Definition _get_imgs (labels : list string) : M (list ndarray_u8) :=
  responses <- ask (simGetImages (map label_to_func labels)) ;;
  images <- lift (map_raise bytestr_to_np responses) ;;
  ret images.

(** The loop of [_get_obs],
    [while True: lidarData = ...; if len(...) >= 3: break],
    for at most [fuel] rounds. *)
Fixpoint poll_lidar (fuel : nat) : M LidarData :=
  match fuel with
  | O => fun s => (Spin, s)
  | S fuel' =>
      lidarData <- ask getLidarData ;;
      if 3 <=? length (point_cloud lidarData)
      then ret lidarData
      else poll_lidar fuel'
  end.

(** [_get_obs(self)] *)
Definition _get_obs (fuel : nat) : M Observation :=
  imgs <- _get_imgs default_labels ;;
  lidarData <- poll_lidar fuel ;;
  lidarData <- lift (process_lidar lidarData) ;;
  let steer := mk_steer f0_0 f0_0 f0_0 in
  let latest_dict := mk_obs lidarData steer imgs in
  _ <- modify_history (add_to_history steer) ;;
  ret latest_dict.

(** [reset(self, **kwargs)] *)
Definition reset (fuel : nat) : M Observation :=
  _ <- tell Airsim.reset ;;
  _ <- sleep 1000 ;;
  _get_obs fuel.

(** [step(self, action)] *)
Definition step (fuel : nat) (action : dict float) : M StepResult :=
  let car_controls :=
    mk_CarControls (dict_get action "speed") (dict_get action "angle") in
  _ <- tell (setCarControls car_controls) ;;
  _ <- sleep 10 ;;
  obs <- _get_obs fuel ;;
  let reward := get_reward in
  let done := tooclose in
  let info : dict float := [] in
  ret (mk_step_result obs reward done info).

(** *** A caller *)

(** The calls of the public interface. *)
Inductive call : Type :=
| CallReset
| CallStep (action : dict float).

(** One call; the caller keeps the state of [self] and drops what the
    call returned or raised. *)
Definition do_call (fuel : nat) (c : call) (s : Env) : outcome unit * Env :=
  match c with
  | CallReset => bind (reset fuel) (fun _ => ret tt) s
  | CallStep action => bind (step fuel action) (fun _ => ret tt) s
  end.

(** A caller that makes the calls of [cs] in turn and goes on after an
    exception; a call whose polling loop does not end is its last. *)
Fixpoint run (fuel : nat) (cs : list call) (s : Env) : Env :=
  match cs with
  | [] => s
  | c :: cs' =>
      match do_call fuel c s with
      | (Spin, s') => s'
      | (_, s') => run fuel cs' s'
      end
  end.

(** *** The simulator seen from the polling loop *)

(** The simulator after [k] calls of [getLidarData], and the sample
    that the next call returns. *)
Fixpoint after_polls (k : nat) (w : W) : W :=
  match k with
  | O => w
  | S k' => after_polls k' (snd (getLidarData w))
  end.

Definition sample (k : nat) (w : W) : LidarData :=
  fst (getLidarData (after_polls k w)).

Definition scalars (k : nat) (w : W) : nat :=
  length (point_cloud (sample k w)).

(** Sample [k] is the first one of at least 3 scalars. *)
Definition first_accepted (k : nat) (w : W) : Prop :=
  (forall j, j < k -> scalars j w < 3) /\ 3 <= scalars k w.

(** The simulator is ready for one observation within [fuel] polls:
    the images it answers decode, and then the first lidar sample of
    at least 3 scalars comes within [fuel] polls and holds whole
    points. *)
Definition images_of (w : W) : list ImageResponse :=
  fst (simGetImages (map label_to_func default_labels) w).

Definition after_images (w : W) : W :=
  snd (simGetImages (map label_to_func default_labels) w).

Definition sensors_ready (fuel : nat) (w : W) : Prop :=
  (exists imgs, map_raise bytestr_to_np (images_of w) = Ok imgs)
  /\ (exists k, k < fuel
                /\ first_accepted k (after_images w)
                /\ scalars k (after_images w) mod 3 = 0).

(** The simulator as [step] leaves it before the observation. *)
Definition actuated (action : dict float) (w : W) : W :=
  elapse 10
    (setCarControls
       (mk_CarControls (dict_get action "speed") (dict_get action "angle"))
       w).

End Methods.

Arguments Env W : clear implicits.
Arguments M W A : clear implicits.

End SIM_f110Env.

(* ================================================================== *)
(** ** Inputs and vocabulary of the statements *)

Module Samples.

Import Deque Np Airsim SIM_f110Env.

(** A point cloud of whole points, flat as the simulator sends it. *)
Fixpoint flatten (pts : rows3) : list float :=
  match pts with
  | [] => []
  | (x, y, z) :: rest => x :: y :: z :: flatten rest
  end.

(** The planar point of a 3-D point, axes swapped. *)
Definition swap_xy (p : float * float * float) : float * float :=
  match p with (x, y, _) => (y, x) end.

(** The last [n] items of a list. *)
Definition keep_last {A} (n : nat) (l : list A) : list A :=
  skipn (length l - n) l.

(** Floats for the examples: the integers as binary64 numbers, and
    -0.1 (-0x1.999999999999ap-4). *)
Definition float_of_pos (p : positive) : float :=
  S754_finite false (Pos.shiftl p (N.of_nat (53 - Pos.to_nat (digits2_pos p))))
              (- Z.of_nat (53 - Pos.to_nat (digits2_pos p))).

Definition f1 : float := S754_finite false 4503599627370496 (-52).
Definition f2 : float := S754_finite false 4503599627370496 (-51).
Definition f3 : float := S754_finite false 6755399441055744 (-51).
Definition fm0_1 : float := S754_finite true 7205759403792794 (-56).

(** Steering commands by their angle. *)
Definition steer_of (a : float) : SteeringCommand := mk_steer a f0_0 f0_0.

(** 501 different commands, of angles 1.0, 2.0, ... *)
Definition commands_501 : list SteeringCommand :=
  map (fun n => steer_of (float_of_pos (Pos.of_nat n))) (seq 1 501).

(** [add_to_history] called with each command of [cmds] in turn. *)
Definition record_all (cmds : list SteeringCommand)
    (h : deque SteeringCommand) : deque SteeringCommand :=
  fold_left (fun h c => add_to_history c h) cmds h.

(** A lidar sample of four points and one of a single point. *)
Definition four_points : LidarData :=
  mk_LidarData (flatten [(f1, f2, f3); (f2, f3, f1); (f3, f1, f2); (f1, f1, f1)]).
Definition one_point : LidarData := mk_LidarData [f1; f2; f3].
Definition two_scalars : LidarData := mk_LidarData [f1; f2].

(** Image responses of 2 x 2 pixels with buffers of 12 and of 11 bytes. *)
Definition image_2x2_12 : ImageResponse :=
  mk_ImageResponse (repeat Byte.x7f 12) 2 2.
Definition image_2x2_11 : ImageResponse :=
  mk_ImageResponse (repeat Byte.x7f 11) 2 2.

(** A simulator that answers the samples of [script] to the first lidar
    calls and [lidar] to every later one, and [images] to every image
    call. *)
Definition mock (script : list LidarData) (lidar : LidarData)
    (images : list ImageResponse) : Mock :=
  mk_Mock script lidar [] images None 0 0.

(** The action [{"angle": 0.0, "speed": 0.0}]. *)
Definition zero_action : dict float :=
  [("angle"%string, f0_0); ("speed"%string, f0_0)].

(** The steer dict of every observation. *)
Definition placeholder : SteeringCommand := mk_steer f0_0 f0_0 f0_0.


End Samples.

(* ================================================================== *)
(** ** [vis_lidarpc] *)

Module Vis.

Import Np SIM_f110Env Samples.

(** [x * y], [x + y], [x - y] on floats, rounded to nearest, ties to
    even. *)
Definition float_mul (x y : float) : float := SFmul prec emax x y.
Definition float_add (x y : float) : float := SFadd prec emax x y.
Definition float_sub (x y : float) : float := SFsub prec emax x y.

(** An [int] as a float, for the integers that a float holds exactly. *)
Definition float_of_int (n : Z) : float :=
  match n with
  | Z0 => f0_0
  | Zpos p => float_of_pos p
  | Zneg p => float_neg (float_of_pos p)
  end.

(** [int(x)]: the integer part, towards zero; [int] of an infinity or of
    a NaN raises. *)
Definition int_of_float (x : float) : outcome Z :=
  match x with
  | S754_zero _ => Ok 0%Z
  | S754_finite s m e =>
      let mag := Z.shiftl (Z.pos m) e in
      Ok (if s then (- mag)%Z else mag)
  | S754_infinity _ => Raise "OverflowError"%string
  | S754_nan => Raise "ValueError"%string
  end.

(** [cx = 250], [cy = 250] and the lambda
    [rangecheck = lambda x, y: abs(x) < 1000. and abs(y) < 1000.] *)
Definition cx : Z := 250.
Definition cy : Z := 250.

Definition rangecheck (x y : float) : bool :=
  float_lt (float_abs x) (float_of_int 1000)
  && float_lt (float_abs y) (float_of_int 1000).

(** [int(cx + x*50)] and [int(cy - y*50)] *)
Definition scaled_x (x : float) : outcome Z :=
  int_of_float (float_add (float_of_int cx) (float_mul x (float_of_int 50))).

Definition scaled_y (y : float) : outcome Z :=
  int_of_float (float_sub (float_of_int cy) (float_mul y (float_of_int 50))).

(** [vis_lidarpc(self, lidar)]: the centres of the circles drawn on the
    frame that [cv2.imshow] is given, in the order of the rows. *)
Fixpoint vis_lidarpc (lidar : rows2) : outcome (list (Z * Z)) :=
  match lidar with
  | [] => Ok []
  | (x, y) :: rest =>
      if rangecheck x y
      then
        and_then (scaled_x x) (fun sx =>
        and_then (scaled_y y) (fun sy =>
        and_then (vis_lidarpc rest) (fun centres =>
        Ok ((sx, sy) :: centres))))
      else vis_lidarpc rest
  end.

(** The rows that pass [rangecheck]. *)
Definition in_range (lidar : rows2) : rows2 :=
  filter (fun p => rangecheck (fst p) (snd p)) lidar.

(** The integers from [lo], [n] of them. *)
Definition ints_from (lo : Z) (n : nat) : list Z :=
  map (fun i => (lo + Z.of_nat i)%Z) (seq 0 n).

End Vis.

(* ================================================================== *)
(** ** A simulator that records the calls it gets *)

Module Tracing.

Import Deque Np Airsim SIM_f110Env Samples.

(** The calls of the client and the sleeps of the caller. *)
Inductive event : Type :=
| EvConfirmConnection
| EvEnableApiControl (is_enabled : bool)
| EvReset
| EvSetCarControls (controls : CarControls)
| EvGetLidarData
| EvSimGetImages (requests : list ImageRequest)
| EvSleep (ms : nat).

(** A simulator [W] with the list of the calls made so far, oldest
    first: every call is made to [W] and added to the list. *)
#[export] Instance Traced (W : Type) (sim : Simulator W)
  : Simulator (W * list event) := {
  confirmConnection wt :=
    (confirmConnection (fst wt), snd wt ++ [EvConfirmConnection]);
  enableApiControl b wt :=
    (enableApiControl b (fst wt), snd wt ++ [EvEnableApiControl b]);
  Airsim.reset wt := (Airsim.reset (fst wt), snd wt ++ [EvReset]);
  setCarControls c wt :=
    (setCarControls c (fst wt), snd wt ++ [EvSetCarControls c]);
  getLidarData wt :=
    (fst (getLidarData (fst wt)),
     (snd (getLidarData (fst wt)), snd wt ++ [EvGetLidarData]));
  simGetImages reqs wt :=
    (fst (simGetImages reqs (fst wt)),
     (snd (simGetImages reqs (fst wt)), snd wt ++ [EvSimGetImages reqs]));
  elapse ms wt := (elapse ms (fst wt), snd wt ++ [EvSleep ms])
}.

(** The calls recorded in a state of [self]. *)
Definition calls {W} (s : Env (W * list event)) : list event :=
  snd (client s).

(** [self] over the recording simulator, nothing recorded yet. *)
Definition traced {W} (s : Env W) : Env (W * list event) :=
  mk_env (client s, []) (history s).

(** The controls that [step] builds from an action. *)
Definition controls_of (action : dict float) : CarControls :=
  mk_CarControls (dict_get action "speed") (dict_get action "angle").

(** The image requests of one observation. *)
Definition default_requests : list ImageRequest :=
  [mk_ImageRequest "front_center" Scene false false].

(** What [add_to_history] appends for a command: 40 copies when the
    angle is below -0.05, nothing otherwise. *)
Definition recorded (c : SteeringCommand) : list SteeringCommand :=
  if float_lt (angle c) (float_neg f0_05) then repeat c 40 else [].


End Tracing.

(* ================================================================== *)
(** ** Vocabulary for the image responses and the lidar samples *)

Module Frames.

Import Deque Np Airsim SIM_f110Env Samples.

(** The declared height and width are positive and their product divides
    the length of the buffer. *)
Definition well_dimensioned (rep : ImageResponse) : bool :=
  ((0 <? height rep) && (0 <? width rep)
   && (Z.of_nat (length (image_data_uint8 rep))
         mod (height rep * width rep) =? 0))%Z.

(** The array of a well dimensioned response: the buffer, with the
    quotient for the number of channels. *)
Definition decoded (rep : ImageResponse) : ndarray_u8 :=
  mk_ndarray_u8
    (height rep, width rep,
     (Z.of_nat (length (image_data_uint8 rep)) / (height rep * width rep))%Z)
    (image_data_uint8 rep).


(** The simulator answers images that decode and then, within [fuel]
    polls, a first sample of at least 3 scalars that is ragged: its
    length is not a multiple of 3. *)
Definition ragged_sample {W} {sim : Simulator W} (fuel : nat) (w : W) : Prop :=
  forallb well_dimensioned (images_of w) = true
  /\ (exists k, k < fuel
                /\ first_accepted k (after_images w)
                /\ scalars k (after_images w) mod 3 <> 0).

End Frames.

(* ================================================================== *)
(** ** Floats *)

Module FloatFacts.

(** The literals are the binary64 numbers nearest to the decimals: the
    distance to the decimal is at most half a unit in the last place,
    [2^-58], and the literals are binary64 numbers. *)
Lemma literals_nearest :
  (Z.abs (100 * num57 f0_05 - 5 * 2 ^ 57) * 2 <= 100)%Z
  /\ (Z.abs (100 * num57 f0_06 - 6 * 2 ^ 57) * 2 <= 100)%Z
  /\ is_binary64 f0_05 = true /\ is_binary64 f0_06 = true.
Proof. repeat split; vm_compute; congruence. Qed.

(** Below the opposite of a positive number, the magnitude is above
    that number: [x < -c] gives [abs(x) > c]. *)
Lemma lt_neg_gt_abs (m : positive) (e : Z) (x : float) :
  float_lt x (float_neg (S754_finite false m e)) = true ->
  float_gt (float_abs x) (S754_finite false m e) = true.
Proof.
  unfold float_lt, float_gt, float_neg, float_abs, SFltb.
  destruct x as [s | s | | s mx ex]; cbn [SFopp SFabs SFcompare negb].
  - destruct s; discriminate.
  - destruct s; [reflexivity | discriminate].
  - discriminate.
  - destruct s; [ | discriminate].
    rewrite (Z.compare_antisym ex e).
    destruct (ex ?= e)%Z; cbn [CompOpp]; try discriminate; try reflexivity.
    replace (Pos.compare_cont Eq m mx)
      with (CompOpp (Pos.compare_cont Eq mx m))
      by exact (Pos.compare_cont_antisym mx m Eq).
    destruct (Pos.compare_cont Eq mx m); cbn [CompOpp];
      try discriminate; reflexivity.
Qed.

(** So [abs(x) > c and x < -c] is [x < -c]. *)
Lemma gt_abs_and_lt_neg (m : positive) (e : Z) (x : float) :
  float_gt (float_abs x) (S754_finite false m e)
  && float_lt x (float_neg (S754_finite false m e))
  = float_lt x (float_neg (S754_finite false m e)).
Proof.
  destruct (float_lt x (float_neg (S754_finite false m e))) eqn:Hlt.
  - rewrite (lt_neg_gt_abs m e x Hlt). reflexivity.
  - apply andb_false_r.
Qed.

End FloatFacts.

(* ================================================================== *)
(** ** The deque *)

Module DequeFacts.

Import Deque Samples.

Section WithItems.

Context {A : Type}.
Implicit Types (d : deque A) (x : A) (xs : list A).

Lemma append_maxlen x d : maxlen (append x d) = maxlen d.
Proof.
  unfold append. destruct (maxlen d) eqn:E; [exact E | ].
  destruct (length (items d) <? S n); reflexivity.
Qed.

Lemma keep_last_all n (l : list A) : length l <= n -> keep_last n l = l.
Proof.
  intros H. unfold keep_last.
  replace (length l - n) with 0 by lia. reflexivity.
Qed.

(** One [append] keeps the last [maxlen] items of what the deque held
    followed by the new item. *)
Lemma append_items x d :
  bounded d ->
  items (append x d) = keep_last (maxlen d) (items d ++ [x]).
Proof.
  unfold bounded, len, append. intros Hb.
  destruct (maxlen d) as [ | n] eqn:E.
  - assert (Hnil : items d = []) by (destruct (items d); [reflexivity | simpl in Hb; lia]).
    rewrite Hnil. reflexivity.
  - destruct (Nat.ltb_spec (length (items d)) (S n)) as [Hlt | Hge]; cbn [items].
    + rewrite keep_last_all; [reflexivity | ].
      rewrite length_app. simpl. lia.
    + unfold keep_last. rewrite length_app. simpl.
      replace (length (items d) + 1 - S n) with 1 by lia.
      destruct (items d); [simpl in Hge; lia | reflexivity].
Qed.

Lemma append_bounded x d : bounded d -> bounded (append x d).
Proof.
  intros Hb. unfold bounded, len.
  rewrite append_items by exact Hb. rewrite append_maxlen.
  unfold keep_last. rewrite length_skipn. lia.
Qed.

Lemma keep_last_app n (l xs : list A) :
  keep_last n (keep_last n l ++ xs) = keep_last n (l ++ xs).
Proof.
  unfold keep_last.
  rewrite !length_app, length_skipn.
  destruct (Nat.le_gt_cases (length l) n) as [Hle | Hgt].
  - replace (length l - n) with 0 by lia.
    rewrite Nat.sub_0_r. reflexivity.
  - rewrite !skipn_app, skipn_skipn, length_skipn.
    f_equal; f_equal; lia.
Qed.

Lemma extend_maxlen xs : forall d, maxlen (extend xs d) = maxlen d.
Proof.
  induction xs as [ | x xs IH]; intros d; [reflexivity | ].
  unfold extend in *. simpl. rewrite IH. apply append_maxlen.
Qed.

(** Any number of appends keeps the last [maxlen] items. *)
Lemma extend_items xs : forall d,
  bounded d ->
  items (extend xs d) = keep_last (maxlen d) (items d ++ xs).
Proof.
  induction xs as [ | x xs IH]; intros d Hb.
  - simpl. rewrite app_nil_r. symmetry. apply keep_last_all. exact Hb.
  - change (extend (x :: xs) d) with (extend xs (append x d)).
    rewrite IH by (apply append_bounded; exact Hb).
    rewrite append_maxlen, append_items by exact Hb.
    rewrite keep_last_app, <- app_assoc. reflexivity.
Qed.

Lemma extend_bounded xs d : bounded d -> bounded (extend xs d).
Proof.
  intros Hb. unfold bounded, len.
  rewrite extend_items by exact Hb. rewrite extend_maxlen.
  unfold keep_last. rewrite length_skipn. lia.
Qed.

(** The loop [for i in range(n): d.append(x)] appends [n] copies. *)
Lemma for_range_append n x : forall d,
  for_range n (append x) d = extend (repeat x n) d.
Proof.
  induction n as [ | n IH]; intros d; [reflexivity | ].
  simpl. rewrite IH. reflexivity.
Qed.

Lemma new_bounded n : bounded (Deque.new A n).
Proof. unfold bounded, len. simpl. lia. Qed.

End WithItems.

End DequeFacts.

(* ================================================================== *)
(** ** Geometry transform: [pc_to_np] *)

Module GeometryTransform.

Import Np Airsim SIM_f110Env Samples.

Lemma reshape_flatten (pts : rows3) : reshape_m1_3 (flatten pts) = Ok pts.
Proof.
  induction pts as [ | [[x y] z] pts IH]; [reflexivity | ].
  simpl. rewrite IH. reflexivity.
Qed.

(** The two column assignments overwrite every cell of [out]. *)
Lemma swap_columns (pts : rows3) :
  set_col1 (set_col0 (empty_like (slice_0_2 pts)) (col1 (slice_0_2 pts)))
           (col0 (slice_0_2 pts))
  = map swap_xy pts.
Proof.
  unfold set_col1, set_col0, empty_like, col0, col1, slice_0_2.
  induction pts as [ | [[x y] z] pts IH]; [reflexivity | ].
  simpl. f_equal. exact IH.
Qed.

(** A flat list reshapes exactly when its length is a multiple of 3. *)
Lemma reshape_ok_iff (pc : list float) :
  (exists rows, reshape_m1_3 pc = Ok rows) <-> length pc mod 3 = 0.
Proof.
  assert (H : forall n pc, length pc <= n ->
            ((exists rows, reshape_m1_3 pc = Ok rows) <-> length pc mod 3 = 0)).
  { clear pc. induction n as [ | n IH]; intros pc Hn.
    - destruct pc; [ | simpl in Hn; lia].
      split; [reflexivity | intros _; exists []; reflexivity].
    - destruct pc as [ | x [ | y [ | z rest]]].
      + split; [reflexivity | intros _; exists []; reflexivity].
      + split; [intros [r Hr]; discriminate | discriminate].
      + split; [intros [r Hr]; discriminate | discriminate].
      + assert (Hrest : length rest <= n) by (simpl in Hn; lia).
        specialize (IH rest Hrest).
        change (length (x :: y :: z :: rest)) with (3 + length rest).
        replace (3 + length rest) with (length rest + 1 * 3) by lia.
        rewrite Nat.Div0.mod_add.
        rewrite <- IH. cbn [reshape_m1_3].
        destruct (reshape_m1_3 rest) as [rows | e | ]; cbn [and_then].
        * split; intros _; eexists; reflexivity.
        * split; intros [r Hr]; discriminate.
        * split; intros [r Hr]; discriminate. }
  apply (H (length pc)). lia.
Qed.

(** C4. [pc_to_np] applied to a point cloud of N whole points, for every
    N >= 0, returns N planar points, the one at index i being
    (input[i].y, input[i].x); a single point (a, b, c) gives (b, a). *)
Theorem pc_to_np_swaps_axes (pts : rows3) :
  pc_to_np (mk_LidarData (flatten pts)) = Ok (map swap_xy pts)
  /\ length (map swap_xy pts) = length pts
  /\ (forall i x y z,
        nth_error pts i = Some (x, y, z) ->
        nth_error (map swap_xy pts) i = Some (y, x))
  /\ (forall a b c, pc_to_np (mk_LidarData [a; b; c]) = Ok [(b, a)]).
Proof.
  split; [ | split; [ | split]].
  - unfold pc_to_np. cbn [point_cloud].
    rewrite reshape_flatten. cbn [and_then].
    rewrite swap_columns. reflexivity.
  - apply length_map.
  - intros i x y z Hi. rewrite nth_error_map, Hi. reflexivity.
  - intros a b c. reflexivity.
Qed.

(** Two points: the second one, (2, 3, 1), comes out as (3, 2). *)
Lemma pc_to_np_swaps_axes_witness :
  nth_error [(f1, f2, f3); (f2, f3, f1)] 1 = Some (f2, f3, f1)
  /\ nth_error (map swap_xy [(f1, f2, f3); (f2, f3, f1)]) 1 = Some (f3, f2).
Proof.
  split; [reflexivity | ].
  apply (proj1 (proj2 (proj2
           (pc_to_np_swaps_axes [(f1, f2, f3); (f2, f3, f1)]))) 1 f2 f3 f1).
  reflexivity.
Defined.

End GeometryTransform.

(* ================================================================== *)
(** ** History buffer: the deque and [add_to_history] *)

Module HistoryBuffer.

Import Deque Np Airsim SIM_f110Env Samples DequeFacts.

Lemma new_history_bounded : bounded new_history.
Proof. apply new_bounded. Qed.

Lemma add_to_history_maxlen steer h :
  maxlen (add_to_history steer h) = maxlen h.
Proof.
  unfold add_to_history. destruct (history_condition steer); [ | reflexivity].
  rewrite for_range_append. apply extend_maxlen.
Qed.

Lemma add_to_history_bounded steer h :
  bounded h -> bounded (add_to_history steer h).
Proof.
  intros Hb. unfold add_to_history.
  destruct (history_condition steer); [ | exact Hb].
  rewrite for_range_append. apply extend_bounded. exact Hb.
Qed.

Lemma record_all_bounded cmds : forall h,
  bounded h -> bounded (record_all cmds h) /\ maxlen (record_all cmds h) = maxlen h.
Proof.
  induction cmds as [ | c cmds IH]; intros h Hb; [split; [exact Hb | reflexivity] | ].
  change (record_all (c :: cmds) h) with (record_all cmds (add_to_history c h)).
  destruct (IH _ (add_to_history_bounded c Hb)) as [H1 H2].
  split; [exact H1 | rewrite H2; apply add_to_history_maxlen].
Qed.

(** The placeholder command of [_get_obs], of angle 0.0, fails the test. *)
Lemma placeholder_not_recorded h :
  add_to_history (mk_steer f0_0 f0_0 f0_0) h = h.
Proof. reflexivity. Qed.

(** C2, as the code has it. The test of [add_to_history],
    [abs(angle) > 0.05 and angle < -0.05], holds exactly when
    [angle < -0.05] (the magnitude test follows from it); the call then
    appends 40 copies of the command, and for every other angle (NaN
    included) it leaves the history as it is. *)
Theorem history_condition_is_below_threshold steer h :
  history_condition steer = float_lt (angle steer) (float_neg f0_05)
  /\ add_to_history steer h =
       if float_lt (angle steer) (float_neg f0_05)
       then extend (repeat steer 40) h
       else h.
Proof.
  assert (Hc : history_condition steer
               = float_lt (angle steer) (float_neg f0_05))
    by apply FloatFacts.gt_abs_and_lt_neg.
  split; [exact Hc | ].
  unfold add_to_history. rewrite Hc.
  destruct (float_lt (angle steer) (float_neg f0_05)); [ | reflexivity].
  apply for_range_append.
Qed.

(** C2, as the claim states it, fails: the angle -0.1 satisfies the test,
    and 40 copies of the command enter the empty history. *)
Lemma history_condition_satisfiable :
  history_condition (steer_of fm0_1) = true
  /\ items (add_to_history (steer_of fm0_1) new_history)
     = repeat (steer_of fm0_1) 40
  /\ add_to_history (steer_of fm0_1) new_history <> new_history.
Proof.
  split; [reflexivity | split; [reflexivity | ]].
  intros H. apply (f_equal len) in H. vm_compute in H. discriminate.
Qed.

(** C8. A command of angle 0.06 does not trigger the 40-fold recording:
    its magnitude is above 0.05 but it is not below -0.05, and
    [add_to_history] returns the history unchanged. *)
Theorem angle_0_06_not_recorded v s h :
  float_gt (float_abs f0_06) f0_05 = true
  /\ float_lt f0_06 (float_neg f0_05) = false
  /\ history_condition (mk_steer f0_06 v s) = false
  /\ add_to_history (mk_steer f0_06 v s) h = h.
Proof. repeat split. Qed.

(** C5. The history never holds more than 500 entries, whatever is
    appended to it or recorded through [add_to_history]; after 501
    appends exactly 500 entries remain: all but the first one appended,
    in the order of their arrival. *)
Theorem history_keeps_last_500 (xs : list SteeringCommand) :
  length xs = 501 ->
  (forall ys, len (extend ys new_history) <= 500)
  /\ (forall cmds, len (record_all cmds new_history) <= 500)
  /\ len (extend xs new_history) = 500
  /\ items (extend xs new_history) = tl xs.
Proof.
  intros Hlen.
  assert (Hitems : items (extend xs new_history) = tl xs).
  { rewrite extend_items by apply new_history_bounded.
    cbn [new_history Deque.new items maxlen app]. unfold keep_last.
    rewrite Hlen. destruct xs; [discriminate | reflexivity]. }
  split; [ | split; [ | split]].
  - intros ys. pose proof (extend_bounded ys new_history_bounded) as Hb.
    unfold bounded in Hb. rewrite extend_maxlen in Hb. exact Hb.
  - intros cmds. destruct (record_all_bounded cmds new_history_bounded) as [Hb Hm].
    unfold bounded in Hb. rewrite Hm in Hb. exact Hb.
  - unfold len. rewrite Hitems. destruct xs; [discriminate | ].
    simpl in *. lia.
  - exact Hitems.
Qed.

(** 501 commands of angles 1.0 to 501.0: the first one is dropped. *)
Lemma history_keeps_last_500_witness :
  length commands_501 = 501
  /\ len (extend commands_501 new_history) = 500
  /\ items (extend commands_501 new_history) = tl commands_501.
Proof.
  split; [reflexivity | ].
  apply (history_keeps_last_500 commands_501). reflexivity.
Defined.

End HistoryBuffer.

(* ================================================================== *)
(** ** Image decoding: [bytestr_to_np] *)

Module ImageDecoding.

Import Np Airsim SIM_f110Env Samples.

(** What [bytestr_to_np] returns, by cases on the declared dimensions. *)
Lemma bytestr_to_np_cases (rep : ImageResponse) :
  let n := Z.of_nat (length (image_data_uint8 rep)) in
  let h := height rep in
  let w := width rep in
  bytestr_to_np rep =
    if ((0 <? h) && (0 <? w) && (n mod (h * w) =? 0))%Z
    then Ok (mk_ndarray_u8 (h, w, (n / (h * w))%Z) (image_data_uint8 rep))
    else Raise ValueError.
Proof.
  cbv zeta. unfold bytestr_to_np, reshape_h_w_m1, fromstring_u8.
  destruct (Z.ltb_spec (height rep) 0) as [Hh | Hh]; cbn [orb].
  - destruct (Z.ltb_spec 0 (height rep)); [lia | reflexivity].
  - destruct (Z.ltb_spec (width rep) 0) as [Hw | Hw].
    + destruct (Z.ltb_spec 0 (width rep)); [lia | ].
      rewrite andb_false_r. reflexivity.
    + destruct (Z.eqb_spec (height rep * width rep) 0) as [H0 | H0]; cbn [orb].
      * destruct (Z.ltb_spec 0 (height rep)); [ | reflexivity].
        destruct (Z.ltb_spec 0 (width rep)); [nia | reflexivity].
      * destruct (Z.ltb_spec 0 (height rep)); [ | nia].
        destruct (Z.ltb_spec 0 (width rep)); [ | nia].
        cbn [andb].
        destruct (Z.of_nat (length (image_data_uint8 rep))
                    mod (height rep * width rep) =? 0)%Z; reflexivity.
Qed.



End ImageDecoding.

(* ================================================================== *)
(** ** The polling loop of [_get_obs] *)

Module Polling.

Import Deque Np Airsim SIM_f110Env Samples.

Section WithSimulator.

Context {W : Type} {sim : Simulator W}.
Implicit Types (s : Env W) (w : W) (fuel k : nat).

Lemma scalars_shift k w :
  scalars (S k) w = scalars k (snd (getLidarData w)).
Proof. reflexivity. Qed.

(** One round of the loop. *)
Lemma poll_lidar_round fuel s :
  poll_lidar (S fuel) s =
    if 3 <=? scalars 0 (client s)
    then (Ok (sample 0 (client s)),
          mk_env (after_polls 1 (client s)) (history s))
    else poll_lidar fuel (mk_env (after_polls 1 (client s)) (history s)).
Proof.
  cbn [poll_lidar]. unfold bind, ask, ret, scalars, sample.
  cbn [after_polls fst snd].
  destruct (3 <=? length (point_cloud (fst (getLidarData (client s)))));
    reflexivity.
Qed.

(** The loop returns the first sample of at least 3 scalars, after as
    many calls of [getLidarData] as it takes to reach it. *)
Lemma poll_lidar_finds k : forall fuel s,
  k < fuel ->
  first_accepted k (client s) ->
  poll_lidar fuel s
  = (Ok (sample k (client s)),
     mk_env (after_polls (S k) (client s)) (history s)).
Proof.
  induction k as [ | k IH]; intros fuel s Hk [Hskip Hacc];
    (destruct fuel as [ | fuel]; [lia | ]); rewrite poll_lidar_round.
  - destruct (Nat.leb_spec 3 (scalars 0 (client s))); [reflexivity | lia].
  - pose proof (Hskip 0 ltac:(lia)) as H0.
    destruct (Nat.leb_spec 3 (scalars 0 (client s))); [lia | ].
    rewrite IH; [reflexivity | lia | ].
    split; cbn [client after_polls].
    + intros j Hj. rewrite <- scalars_shift. apply Hskip. lia.
    + rewrite <- scalars_shift. exact Hacc.
Qed.

(** While the samples have fewer than 3 scalars the loop goes on. *)
Lemma poll_lidar_spins fuel : forall s,
  (forall j, j < fuel -> scalars j (client s) < 3) ->
  poll_lidar fuel s = (Spin, mk_env (after_polls fuel (client s)) (history s)).
Proof.
  induction fuel as [ | fuel IH]; intros s Hskip.
  - destruct s; reflexivity.
  - rewrite poll_lidar_round.
    pose proof (Hskip 0 ltac:(lia)) as H0.
    destruct (Nat.leb_spec 3 (scalars 0 (client s))); [lia | ].
    rewrite IH; [reflexivity | ].
    intros j Hj. cbn [client after_polls].
    rewrite <- scalars_shift. apply Hskip. lia.
Qed.

(** What the loop returns is the first sample of at least 3 scalars. *)
Lemma poll_lidar_returns fuel : forall s ld s',
  poll_lidar fuel s = (Ok ld, s') ->
  exists k, k < fuel /\ first_accepted k (client s)
            /\ ld = sample k (client s)
            /\ s' = mk_env (after_polls (S k) (client s)) (history s).
Proof.
  induction fuel as [ | fuel IH]; intros s ld s' H; [discriminate | ].
  rewrite poll_lidar_round in H.
  destruct (Nat.leb_spec 3 (scalars 0 (client s))) as [Hacc | Hskip].
  - exists 0. inversion H; subst.
    repeat split; [lia | intros j Hj; lia | exact Hacc].
  - apply IH in H. destruct H as (k & Hk & [Hsk Hac] & Hld & Hs').
    exists (S k). cbn [client] in *.
    repeat split; [lia | | exact Hac | exact Hld | exact Hs'].
    intros [ | j] Hj; [exact Hskip | ].
    rewrite scalars_shift. apply Hsk. lia.
Qed.


Lemma poll_lidar_history fuel : forall s,
  history (snd (poll_lidar fuel s)) = history s.
Proof.
  induction fuel as [ | fuel IH]; intros s; [reflexivity | ].
  rewrite poll_lidar_round.
  destruct (3 <=? scalars 0 (client s)); [reflexivity | ].
  rewrite IH. reflexivity.
Qed.

(** [_get_obs], step by step: the images, the loop, [process_lidar]. *)
Lemma _get_obs_unfold fuel s :
  _get_obs fuel s =
    match map_raise bytestr_to_np (images_of (client s)) with
    | Ok imgs =>
        match poll_lidar fuel (mk_env (after_images (client s)) (history s)) with
        | (Ok ld, s') =>
            match process_lidar ld with
            | Ok pts => (Ok (mk_obs pts placeholder imgs), s')
            | Raise e => (Raise e, s')
            | Spin => (Spin, s')
            end
        | (Raise e, s') => (Raise e, s')
        | (Spin, s') => (Spin, s')
        end
    | Raise e => (Raise e, mk_env (after_images (client s)) (history s))
    | Spin => (Spin, mk_env (after_images (client s)) (history s))
    end.
Proof.
  unfold _get_obs, _get_imgs, bind, ask, lift, ret, modify_history,
    images_of, after_images.
  cbn [fst snd].
  destruct (map_raise bytestr_to_np _) as [imgs | e | ]; try reflexivity.
  destruct (poll_lidar fuel _) as [[ld | e | ] s']; try reflexivity.
  destruct (process_lidar ld) as [pts | e | ]; try reflexivity.
  destruct s'; reflexivity.
Qed.

(** [process_lidar] returns [None] whenever it returns. *)
Lemma process_lidar_returns_None ld pts :
  process_lidar ld = Ok pts -> pts = None.
Proof.
  unfold process_lidar. destruct (pc_to_np ld); cbn [and_then]; congruence.
Qed.

Lemma process_lidar_whole_points ld :
  length (point_cloud ld) mod 3 = 0 -> process_lidar ld = Ok None.
Proof.
  intros Hm. apply GeometryTransform.reshape_ok_iff in Hm.
  destruct Hm as [rows Hr].
  unfold process_lidar, pc_to_np. rewrite Hr. reflexivity.
Qed.

(** A simulator that is ready gives an observation. *)
Lemma _get_obs_ready fuel s :
  sensors_ready fuel (client s) ->
  exists imgs k,
    k < fuel
    /\ _get_obs fuel s
       = (Ok (mk_obs None placeholder imgs),
          mk_env (after_polls (S k) (after_images (client s))) (history s)).
Proof.
  intros [[imgs Hi] (k & Hk & Hacc & Hm)].
  exists imgs, k. split; [exact Hk | ].
  rewrite _get_obs_unfold, Hi.
  rewrite (@poll_lidar_finds k fuel (mk_env (after_images (client s)) (history s)) Hk Hacc).
  cbn [client history].
  rewrite process_lidar_whole_points by exact Hm. reflexivity.
Qed.

(** C6. In the loop of [_get_obs] a sample of fewer than 3 scalars is
    never handed to [process_lidar]: what the loop returns is the first
    sample of at least 3 scalars, and while the samples stay shorter the
    loop goes on and [_get_obs] does not reach [process_lidar]. A sample
    of exactly 3 scalars is accepted in the round in which it arrives:
    if it is the sample of poll number k, the loop ends after k + 1 calls
    of [getLidarData] and returns it. *)
Theorem poll_lidar_accepts_from_3_scalars fuel s :
  (forall ld s',
      poll_lidar fuel s = (Ok ld, s') ->
      3 <= length (point_cloud ld)
      /\ exists k, k < fuel /\ first_accepted k (client s)
                   /\ ld = sample k (client s)
                   /\ s' = mk_env (after_polls (S k) (client s)) (history s))
  /\ (forall k,
        k < fuel ->
        (forall j, j < k -> scalars j (client s) < 3) ->
        scalars k (client s) = 3 ->
        poll_lidar fuel s
        = (Ok (sample k (client s)),
           mk_env (after_polls (S k) (client s)) (history s)))
  /\ ((forall j, j < fuel -> scalars j (client s) < 3) ->
        poll_lidar fuel s
        = (Spin, mk_env (after_polls fuel (client s)) (history s)))
  /\ ((forall j, j < fuel -> scalars j (after_images (client s)) < 3) ->
        forall obs s', _get_obs fuel s <> (Ok obs, s')).
Proof.
  split; [ | split; [ | split]].
  - intros ld s' H. apply poll_lidar_returns in H.
    destruct H as (k & Hk & Hacc & Hld & Hs').
    split; [ | exists k; repeat split; try assumption; apply Hacc].
    subst ld. apply Hacc.
  - intros k Hk Hskip H3. apply poll_lidar_finds; [exact Hk | ].
    split; [exact Hskip | lia].
  - apply poll_lidar_spins.
  - intros Hskip obs s'. rewrite _get_obs_unfold.
    destruct (map_raise bytestr_to_np _); try discriminate.
    rewrite poll_lidar_spins by exact Hskip. discriminate.
Qed.

End WithSimulator.

(** With a simulator that answers 2 scalars and then one point, the loop
    returns the point after two polls. *)
Lemma poll_lidar_accepts_from_3_scalars_witness :
  let s := __init__ (mock [two_scalars] one_point [image_2x2_12]) in
  (1 < 2 /\ (forall j, j < 1 -> scalars j (client s) < 3)
   /\ scalars 1 (client s) = 3)
  /\ poll_lidar 2 s
     = (Ok one_point, mk_env (after_polls 2 (client s)) (history s)).
Proof.
  cbv zeta.
  assert (Hskip : forall j, j < 1 ->
            scalars j (client (__init__ (mock [two_scalars] one_point [image_2x2_12]))) < 3).
  { intros j Hj. assert (j = 0) by lia. subst j. vm_compute. lia. }
  split; [split; [lia | split; [exact Hskip | reflexivity]] | ].
  exact (proj1 (proj2 (poll_lidar_accepts_from_3_scalars 2
            (__init__ (mock [two_scalars] one_point [image_2x2_12])))) 1
           ltac:(lia) Hskip eq_refl).
Defined.

End Polling.

(* ================================================================== *)
(** ** [reset] and [step] *)

Module Interface.

Import Deque Np Airsim SIM_f110Env Samples Polling.

Section WithSimulator.

Context {W : Type} {sim : Simulator W}.
Implicit Types (s : Env W) (w : W) (fuel : nat) (action : dict float).

(** [reset] and [step] are [_get_obs] run on the simulator after the
    calls that come first. *)
Lemma reset_unfold fuel s :
  reset fuel s
  = _get_obs fuel (mk_env (elapse 1000 (Airsim.reset (client s))) (history s)).
Proof. reflexivity. Qed.

Lemma step_unfold fuel action s :
  step fuel action s =
    match _get_obs fuel (mk_env (actuated action (client s)) (history s)) with
    | (Ok obs, s') => (Ok (mk_step_result obs 0 false []), s')
    | (Raise e, s') => (Raise e, s')
    | (Spin, s') => (Spin, s')
    end.
Proof. reflexivity. Qed.

(** The history is the same after [_get_obs], however it ends. *)
Lemma _get_obs_history fuel s :
  history (snd (_get_obs fuel s)) = history s.
Proof.
  rewrite _get_obs_unfold.
  destruct (map_raise bytestr_to_np _); try reflexivity.
  pose proof (poll_lidar_history fuel
                (mk_env (after_images (client s)) (history s))) as Hp.
  destruct (poll_lidar fuel _) as [[ld | e | ] s']; cbn [snd history] in *;
    try exact Hp.
  destruct (process_lidar ld); exact Hp.
Qed.

Lemma reset_history fuel s : history (snd (reset fuel s)) = history s.
Proof. rewrite reset_unfold, _get_obs_history. reflexivity. Qed.

Lemma step_history fuel action s :
  history (snd (step fuel action s)) = history s.
Proof.
  rewrite step_unfold.
  pose proof (_get_obs_history fuel
                (mk_env (actuated action (client s)) (history s))) as Hg.
  destruct (_get_obs fuel _) as [[obs | e | ] s']; exact Hg.
Qed.

Lemma do_call_history fuel c s :
  history (snd (do_call fuel c s)) = history s.
Proof.
  destruct c as [ | action]; unfold do_call, bind, ret.
  - pose proof (reset_history fuel s) as H.
    destruct (reset fuel s) as [[obs | e | ] s']; exact H.
  - pose proof (step_history fuel action s) as H.
    destruct (step fuel action s) as [[r | e | ] s']; exact H.
Qed.

Lemma run_history fuel cs : forall s, history (run fuel cs s) = history s.
Proof.
  induction cs as [ | c cs IH]; intros s; [reflexivity | ].
  cbn [run]. pose proof (do_call_history fuel c s) as H.
  destruct (do_call fuel c s) as [[u | e | ] s']; cbn [snd] in H;
    try rewrite IH; exact H.
Qed.

(** Every observation that [_get_obs] returns has [None] for its lidar
    points and the placeholder for its steer. *)
Lemma _get_obs_returns fuel s obs s' :
  _get_obs fuel s = (Ok obs, s') ->
  lidar_pc obs = None /\ steer obs = placeholder.
Proof.
  rewrite _get_obs_unfold.
  destruct (map_raise bytestr_to_np _); try discriminate.
  destruct (poll_lidar fuel _) as [[ld | e | ] s'']; try discriminate.
  destruct (process_lidar ld) as [pts | e | ] eqn:Hp; try discriminate.
  apply process_lidar_returns_None in Hp. subst pts.
  intros H. inversion H. split; reflexivity.
Qed.

(** C3. Whatever the action and the state, what [step] returns has
    [reward = 0], [done = False] and an empty [info]; and [step] does
    return, with these values, when the simulator is ready for the
    observation within the bound given to the polling loop. *)
Theorem step_returns_pinned_baseline fuel action s :
  (forall r s',
      step fuel action s = (Ok r, s') ->
      reward r = 0%Z /\ done r = false /\ info r = [])
  /\ (sensors_ready fuel (actuated action (client s)) ->
      exists obs s',
        step fuel action s = (Ok (mk_step_result obs 0 false []), s')).
Proof.
  split.
  - intros r s'. rewrite step_unfold.
    destruct (_get_obs fuel _) as [[obs | e | ] s'']; try discriminate.
    intros H. inversion H. repeat split.
  - intros Hready. rewrite step_unfold.
    destruct (@_get_obs_ready _ _ fuel
                (mk_env (actuated action (client s)) (history s)) Hready)
      as (imgs & k & _ & Hg).
    rewrite Hg. eexists. eexists. reflexivity.
Qed.

(** C9. [reset] leaves the history as it was: the observation cycle
    inside it records the placeholder command, which fails the test of
    [add_to_history]. The same holds for [step], and so for every
    sequence of [reset] and [step] calls, however each call ends. *)
Theorem reset_keeps_history fuel s :
  history (snd (reset fuel s)) = history s
  /\ (forall action, history (snd (step fuel action s)) = history s)
  /\ (forall cs, history (run fuel cs s) = history s).
Proof.
  split; [apply reset_history | split].
  - intros action. apply step_history.
  - intros cs. apply run_history.
Qed.

(** C10. Through [reset] and [step] the history stays empty: every
    observation cycle hands [add_to_history] the placeholder command of
    angle 0.0, which fails its test, so that after every sequence of
    calls on a new environment the history holds nothing. *)
Theorem history_stays_empty fuel w cs :
  angle placeholder = f0_0
  /\ history_condition placeholder = false
  /\ (forall h, add_to_history placeholder h = h)
  /\ (forall obs s s', _get_obs fuel s = (Ok obs, s') -> steer obs = placeholder)
  /\ items (history (run fuel cs (__init__ w))) = [].
Proof.
  split; [reflexivity | split; [reflexivity | split; [reflexivity | split]]].
  - intros obs s s' H. apply (_get_obs_returns _ _ H).
  - rewrite run_history. reflexivity.
Qed.

End WithSimulator.

(** A simulator that answers 2 scalars and then four points: [step]
    returns after two polls. *)
Lemma step_returns_pinned_baseline_witness :
  let s := __init__ (mock [two_scalars] four_points [image_2x2_12]) in
  sensors_ready 2 (actuated zero_action (client s))
  /\ exists obs s',
       step 2 zero_action s = (Ok (mk_step_result obs 0 false []), s').
Proof.
  cbv zeta.
  assert (Hready : sensors_ready 2
            (actuated zero_action
               (client (__init__ (mock [two_scalars] four_points [image_2x2_12]))))).
  { split.
    - eexists. reflexivity.
    - exists 1. split; [lia | split; [split | reflexivity]].
      + intros j Hj. assert (j = 0) by lia. subst j. vm_compute. lia.
      + vm_compute. lia. }
  split; [exact Hready | ].
  exact (proj2 (step_returns_pinned_baseline 2 zero_action
                  (__init__ (mock [two_scalars] four_points [image_2x2_12])))
               Hready).
Defined.

(** An observation of a simulator that answers four points at once. *)
Lemma history_stays_empty_witness :
  let s := __init__ (mock [] four_points [image_2x2_12]) in
  _get_obs 1 s
    = (Ok (mk_obs None placeholder
             [mk_ndarray_u8 (2, 2, 3)%Z (repeat Byte.x7f 12)]),
       snd (_get_obs 1 s))
  /\ steer (mk_obs None placeholder
              [mk_ndarray_u8 (2, 2, 3)%Z (repeat Byte.x7f 12)]) = placeholder.
Proof.
  cbv zeta. split; [reflexivity | ].
  exact (proj1 (proj2 (proj2 (proj2
           (history_stays_empty 1 (mock [] four_points [image_2x2_12]) []))))
           _ (__init__ (mock [] four_points [image_2x2_12])) _ eq_refl).
Defined.

(** C1, on the code. With a simulator that answers a lidar sample of four
    points, [reset()] and then [step({"angle": 0.0, "speed": 0.0})] both
    return, and the lidar field of both observations is [None]: the four
    planar points that [pc_to_np] computes are dropped by [process_lidar],
    which has no [return]. *)
Theorem reset_step_lidar_pc_is_None :
  let s0 := __init__ (mock [] four_points [image_2x2_12]) in
  let frame := mk_ndarray_u8 (2, 2, 3)%Z (repeat Byte.x7f 12) in
  fst (reset 1 s0) = Ok (mk_obs None placeholder [frame])
  /\ fst (step 1 zero_action (snd (reset 1 s0)))
     = Ok (mk_step_result (mk_obs None placeholder [frame]) 0 false [])
  /\ pc_to_np four_points = Ok [(f2, f1); (f3, f2); (f1, f3); (f1, f1)]
  /\ process_lidar four_points = Ok None.
Proof. cbv zeta. repeat split. Qed.


End Interface.

(* ================================================================== *)
(** ** More on the point cloud conversions *)

Module PointClouds.

Import Np Airsim SIM_f110Env Samples.

(** What reshapes is the flat list of the rows it reshapes to. *)
Lemma reshape_inv : forall (pc : list float) (rows : rows3),
  reshape_m1_3 pc = Ok rows -> pc = flatten rows.
Proof.
  intros pc. remember (length pc) as n eqn:Hn.
  revert pc Hn. induction n as [n IH] using lt_wf_ind. intros pc Hn rows Hr.
  destruct pc as [ | x [ | y [ | z rest]]]; try discriminate.
  - inversion Hr. reflexivity.
  - cbn [reshape_m1_3] in Hr.
    destruct (reshape_m1_3 rest) as [rows' | e | ] eqn:Hrest; try discriminate.
    cbn [and_then] in Hr. inversion Hr; subst rows.
    cbn [flatten]. do 3 f_equal.
    apply (IH (length rest)); [simpl in Hn; lia | reflexivity | exact Hrest].
Qed.

Lemma length_flatten (pts : rows3) : length (flatten pts) = 3 * length pts.
Proof.
  induction pts as [ | [[x y] z] pts IH]; [reflexivity | ].
  cbn [flatten length]. lia.
Qed.

(** [reshape] raises nothing but [ValueError]. *)
Lemma reshape_raises_ValueError (pc : list float) :
  match reshape_m1_3 pc with
  | Ok _ => True
  | Raise e => e = ValueError
  | Spin => False
  end.
Proof.
  assert (H : forall n pc, length pc <= n ->
            match reshape_m1_3 pc with
            | Ok _ => True
            | Raise e => e = ValueError
            | Spin => False
            end).
  { clear pc. induction n as [ | n IH]; intros pc Hn;
      destruct pc as [ | x [ | y [ | z rest]]]; cbn [reshape_m1_3];
      try exact I; try reflexivity; try (simpl in Hn; lia).
    assert (Hrest : length rest <= n) by (simpl in Hn; lia).
    specialize (IH rest Hrest).
    destruct (reshape_m1_3 rest); cbn [and_then]; exact IH || exact I. }
  apply (H (length pc)). lia.
Qed.

(** A flat list whose length is not a multiple of 3 does not reshape. *)
Lemma reshape_ragged (pc : list float) :
  length pc mod 3 <> 0 -> reshape_m1_3 pc = Raise ValueError.
Proof.
  intros Hm. pose proof (reshape_raises_ValueError pc) as Hv.
  destruct (reshape_m1_3 pc) as [rows | e | ] eqn:Hr.
  - exfalso. apply Hm. apply GeometryTransform.reshape_ok_iff.
    exists rows. exact Hr.
  - rewrite Hv. reflexivity.
  - contradiction.
Qed.

Lemma pc_to_np_flatten (pts : rows3) :
  pc_to_np (mk_LidarData (flatten pts)) = Ok (map swap_xy pts).
Proof.
  unfold pc_to_np. cbn [point_cloud].
  rewrite GeometryTransform.reshape_flatten. cbn [and_then].
  rewrite GeometryTransform.swap_columns. reflexivity.
Qed.

Lemma transformLidar_flatten (pts : rows3) :
  transformLidar (mk_LidarData (flatten pts)) = Ok (slice_0_2 pts).
Proof.
  unfold transformLidar. cbn [point_cloud].
  rewrite GeometryTransform.reshape_flatten. reflexivity.
Qed.

(** Every point cloud is a list of whole points or a ragged list. *)
Lemma whole_or_ragged (ld : LidarData) :
  (exists pts, ld = mk_LidarData (flatten pts))
  \/ length (point_cloud ld) mod 3 <> 0.
Proof.
  destruct ld as [pc]. cbn [point_cloud].
  destruct (Nat.eq_dec (length pc mod 3) 0) as [Hm | Hm]; [left | right; exact Hm].
  apply GeometryTransform.reshape_ok_iff in Hm. destruct Hm as [rows Hr].
  exists rows. f_equal. apply reshape_inv. exact Hr.
Qed.

(** X1. [pc_to_np] returns exactly when the point cloud holds a multiple
    of 3 scalars, and then it returns a third as many planar points; on
    every other point cloud it raises [ValueError]. *)
Theorem pc_to_np_needs_whole_points (ld : LidarData) :
  (length (point_cloud ld) mod 3 = 0 ->
     exists out, pc_to_np ld = Ok out
                 /\ 3 * length out = length (point_cloud ld))
  /\ (length (point_cloud ld) mod 3 <> 0 -> pc_to_np ld = Raise ValueError).
Proof.
  split.
  - intros Hm. destruct (whole_or_ragged ld) as [[pts Hld] | Hr]; [ | contradiction].
    subst ld. exists (map swap_xy pts). split; [apply pc_to_np_flatten | ].
    cbn [point_cloud]. rewrite length_map, length_flatten. reflexivity.
  - intros Hm. unfold pc_to_np. rewrite reshape_ragged by exact Hm. reflexivity.
Qed.

(** The point cloud of four points, and one of four scalars. *)
Lemma pc_to_np_needs_whole_points_witness :
  (length (point_cloud four_points) mod 3 = 0
   /\ exists out, pc_to_np four_points = Ok out
                  /\ 3 * length out = length (point_cloud four_points))
  /\ (length (point_cloud (mk_LidarData [f1; f2; f3; f1])) mod 3 <> 0
      /\ pc_to_np (mk_LidarData [f1; f2; f3; f1]) = Raise ValueError).
Proof.
  split; (split; [ | ]).
  - reflexivity.
  - apply (proj1 (pc_to_np_needs_whole_points four_points)). reflexivity.
  - discriminate.
  - apply (proj2 (pc_to_np_needs_whole_points (mk_LidarData [f1; f2; f3; f1]))).
    discriminate.
Defined.

(** X2. [transformLidar] and [pc_to_np] differ by the swap of the two
    axes only: on every point cloud both raise, or both return, the
    planar points of [pc_to_np] being those of [transformLidar] with x
    and y exchanged; [transformLidar] gives (x, y) of each point in
    order, and neither reads z. *)
Theorem pc_to_np_is_swapped_transformLidar (ld : LidarData) :
  pc_to_np ld
  = and_then (transformLidar ld)
             (fun pts => Ok (map (fun p => (snd p, fst p)) pts))
  /\ (forall pts : rows3,
        transformLidar (mk_LidarData (flatten pts))
        = Ok (map (fun p => (fst (fst p), snd (fst p))) pts))
  /\ (forall pts pts' : rows3,
        map fst pts = map fst pts' ->
        pc_to_np (mk_LidarData (flatten pts))
        = pc_to_np (mk_LidarData (flatten pts'))
        /\ transformLidar (mk_LidarData (flatten pts))
           = transformLidar (mk_LidarData (flatten pts'))).
Proof.
  assert (Hslice : forall pts : rows3, slice_0_2 pts = map fst pts).
  { intros pts. unfold slice_0_2. apply map_ext. intros [[x y] z]. reflexivity. }
  assert (Hswap : forall pts : rows3,
            map swap_xy pts = map (fun p => (snd p, fst p)) (map fst pts)).
  { intros pts. rewrite map_map. apply map_ext. intros [[x y] z]. reflexivity. }
  split; [ | split].
  - destruct (whole_or_ragged ld) as [[pts Hld] | Hr].
    + subst ld. rewrite pc_to_np_flatten, transformLidar_flatten.
      cbn [and_then]. rewrite Hswap, Hslice. reflexivity.
    + unfold pc_to_np, transformLidar. rewrite reshape_ragged by exact Hr.
      reflexivity.
  - intros pts. rewrite transformLidar_flatten, Hslice.
    f_equal. apply map_ext. intros [[x y] z]. reflexivity.
  - intros pts pts' Heq.
    rewrite !pc_to_np_flatten, !transformLidar_flatten, !Hswap, !Hslice, Heq.
    split; reflexivity.
Qed.

(** Two clouds of one point that differ in z only. *)
Lemma pc_to_np_is_swapped_transformLidar_witness :
  map fst [(f1, f2, f3)] = map fst [(f1, f2, f1)]
  /\ pc_to_np (mk_LidarData (flatten [(f1, f2, f3)]))
     = pc_to_np (mk_LidarData (flatten [(f1, f2, f1)])).
Proof.
  split; [reflexivity | ].
  apply (proj2 (proj2 (pc_to_np_is_swapped_transformLidar four_points))
           [(f1, f2, f3)] [(f1, f2, f1)]).
  reflexivity.
Defined.

End PointClouds.

(* ================================================================== *)
(** ** More on [add_to_history] *)

Module Recording.

Import Deque Np Airsim SIM_f110Env Samples Tracing DequeFacts.

Lemma add_to_history_recorded steer h :
  add_to_history steer h = extend (recorded steer) h.
Proof.
  assert (Hc : history_condition steer
               = float_lt (angle steer) (float_neg f0_05))
    by apply FloatFacts.gt_abs_and_lt_neg.
  unfold add_to_history, recorded. rewrite Hc.
  destruct (float_lt (angle steer) (float_neg f0_05)); [ | reflexivity].
  apply for_range_append.
Qed.

Lemma extend_app {A} (xs ys : list A) (d : deque A) :
  extend (xs ++ ys) d = extend ys (extend xs d).
Proof. unfold extend. apply fold_left_app. Qed.

Lemma record_all_recorded cmds : forall h,
  record_all cmds h = extend (flat_map recorded cmds) h.
Proof.
  induction cmds as [ | c cmds IH]; intros h; [reflexivity | ].
  change (record_all (c :: cmds) h) with (record_all cmds (add_to_history c h)).
  rewrite IH, add_to_history_recorded. cbn [flat_map].
  rewrite extend_app. reflexivity.
Qed.

(** X3. A command whose angle is below -0.05, recorded in a history of
    bound 500, leaves the last 460 of the old entries followed by 40
    copies of the command: the history grows by 40 up to the bound, and
    what no longer fits is dropped from the old end. *)
Theorem locked_command_recorded_40_times steer h :
  float_lt (angle steer) (float_neg f0_05) = true ->
  bounded h ->
  maxlen h = 500 ->
  items (add_to_history steer h)
  = keep_last 460 (items h) ++ repeat steer 40
  /\ len (add_to_history steer h) = Nat.min (len h + 40) 500.
Proof.
  intros Hlt Hb Hm.
  assert (Hitems : items (add_to_history steer h)
                   = keep_last 460 (items h) ++ repeat steer 40).
  { rewrite add_to_history_recorded. unfold recorded. rewrite Hlt.
    rewrite extend_items by exact Hb. rewrite Hm.
    unfold keep_last. rewrite length_app, repeat_length, skipn_app.
    unfold bounded, len in Hb. rewrite Hm in Hb.
    replace (length (items h) + 40 - 500 - length (items h)) with 0 by lia.
    replace (length (items h) + 40 - 500) with (length (items h) - 460) by lia.
    reflexivity. }
  split; [exact Hitems | ].
  unfold len. rewrite Hitems. unfold keep_last.
  rewrite length_app, length_skipn, repeat_length.
  unfold bounded, len in Hb. lia.
Qed.

(** The angle -0.1 recorded in the new history and, once more, in a full
    one. *)
Lemma locked_command_recorded_40_times_witness :
  float_lt (angle (steer_of fm0_1)) (float_neg f0_05) = true
  /\ bounded (extend commands_501 new_history)
  /\ maxlen (extend commands_501 new_history) = 500
  /\ len (add_to_history (steer_of fm0_1) (extend commands_501 new_history))
     = Nat.min (len (extend commands_501 new_history) + 40) 500.
Proof.
  assert (Hb : bounded (extend commands_501 new_history))
    by (apply extend_bounded, new_bounded).
  split; [reflexivity | split; [exact Hb | split; [reflexivity | ]]].
  apply (@locked_command_recorded_40_times (steer_of fm0_1)
           (extend commands_501 new_history));
    [reflexivity | exact Hb | reflexivity].
Defined.

(** X4. [add_to_history] records steering to one side only: a command
    whose angle is not below 0.0 (zero, positive, +infinity or NaN) is
    never recorded, however large the angle, and neither is the angle
    -0.05 itself, the comparison being strict. *)
Theorem only_negative_angles_recorded steer h :
  float_lt (angle steer) f0_0 = false ->
  add_to_history steer h = h
  /\ (forall v s, add_to_history (mk_steer (float_neg f0_05) v s) h = h).
Proof.
  intros Hpos. split; [ | intros v s; reflexivity].
  rewrite add_to_history_recorded. unfold recorded.
  replace (float_lt (angle steer) (float_neg f0_05)) with false; [reflexivity | ].
  destruct (angle steer) as [sg | sg | | sg m e]; try reflexivity;
    destruct sg; try reflexivity; discriminate.
Qed.

(** The angle 3.0, far above the threshold in magnitude. *)
Lemma only_negative_angles_recorded_witness :
  float_lt (angle (steer_of f3)) f0_0 = false
  /\ add_to_history (steer_of f3) new_history = new_history.
Proof.
  split; [reflexivity | ].
  apply (@only_negative_angles_recorded (steer_of f3) new_history).
  reflexivity.
Defined.

(** X5. Recording a sequence of commands one after the other leaves, in a
    history that respects its bound, the last [maxlen] entries of what
    it held followed by 40 copies of each command of angle below -0.05,
    in the order of the commands; the other commands leave no trace. *)
Theorem record_all_keeps_last cmds h :
  bounded h ->
  items (record_all cmds h)
  = keep_last (maxlen h) (items h ++ flat_map recorded cmds)
  /\ maxlen (record_all cmds h) = maxlen h.
Proof.
  intros Hb. rewrite record_all_recorded.
  split; [apply extend_items; exact Hb | apply extend_maxlen].
Qed.

(** Three commands, of angles 0.06, -0.1 and 0.0: 40 entries. *)
Lemma record_all_keeps_last_witness :
  bounded new_history
  /\ items (record_all [steer_of f0_06; steer_of fm0_1; steer_of f0_0] new_history)
     = repeat (steer_of fm0_1) 40.
Proof.
  split; [apply new_bounded | ].
  apply (proj1 (@record_all_keeps_last
                  [steer_of f0_06; steer_of fm0_1; steer_of f0_0]
                  new_history (new_bounded 500))).
Defined.

End Recording.

(* ================================================================== *)
(** ** More on [_get_imgs] *)

Module Images.

Import Deque Np Airsim SIM_f110Env Samples Frames.

Lemma bytestr_to_np_decoded (rep : ImageResponse) :
  bytestr_to_np rep
  = if well_dimensioned rep then Ok (decoded rep) else Raise ValueError.
Proof. apply ImageDecoding.bytestr_to_np_cases. Qed.

(** The frames of a list of responses: all of them, or [ValueError] when
    one does not decode. *)
Lemma map_raise_bytestr_to_np (reps : list ImageResponse) :
  map_raise bytestr_to_np reps
  = if forallb well_dimensioned reps
    then Ok (map decoded reps)
    else Raise ValueError.
Proof.
  induction reps as [ | rep reps IH]; [reflexivity | ].
  cbn [map_raise forallb map]. rewrite bytestr_to_np_decoded.
  destruct (well_dimensioned rep); cbn [and_then andb]; [ | reflexivity].
  rewrite IH. destruct (forallb well_dimensioned reps); reflexivity.
Qed.


Section WithSimulator.

Context {W : Type} {sim : Simulator W}.


End WithSimulator.


End Images.

(* ================================================================== *)
(** ** [vis_lidarpc] *)

Module Drawing.

Import Np Airsim SIM_f110Env Samples Vis.

Lemma ints_from_In (lo n : Z) (k : nat) :
  (lo <= n < lo + Z.of_nat k)%Z -> In n (ints_from lo k).
Proof.
  intros Hn. unfold ints_from. apply in_map_iff.
  exists (Z.to_nat (n - lo)). split; [lia | ].
  apply in_seq. lia.
Qed.

(** A row out of range is skipped. *)
Lemma vis_lidarpc_in_range (lidar : rows2) :
  vis_lidarpc lidar = vis_lidarpc (in_range lidar).
Proof.
  unfold in_range. induction lidar as [ | [x y] rest IH]; [reflexivity | ].
  cbn [vis_lidarpc filter fst snd].
  destruct (rangecheck x y) eqn:Hr; [ | exact IH].
  cbn [vis_lidarpc]. rewrite Hr, IH. reflexivity.
Qed.

Lemma vis_lidarpc_length : forall (lidar : rows2) (centres : list (Z * Z)),
  vis_lidarpc lidar = Ok centres ->
  length centres = length (in_range lidar).
Proof.
  unfold in_range.
  induction lidar as [ | [x y] rest IH]; intros centres H.
  - inversion H. reflexivity.
  - cbn [vis_lidarpc filter fst snd] in *.
    destruct (rangecheck x y); [ | apply IH; exact H].
    destruct (scaled_x x) as [sx | e | ]; try discriminate.
    destruct (scaled_y y) as [sy | e | ]; try discriminate.
    destruct (vis_lidarpc rest) as [cs | e | ]; try discriminate.
    cbn [and_then] in H. inversion H. cbn [length].
    f_equal. apply IH. reflexivity.
Qed.

(** X7. [vis_lidarpc] draws for the rows that pass [rangecheck] only: the
    rows that fail it change nothing (they cannot make the call raise
    either), the circles drawn are as many as the rows that pass, and a
    row with a NaN or an infinite coordinate never passes. *)
Theorem vis_lidarpc_draws_rows_in_range (lidar : rows2) :
  vis_lidarpc lidar = vis_lidarpc (in_range lidar)
  /\ (forall centres,
        vis_lidarpc lidar = Ok centres ->
        length centres = length (in_range lidar)
        /\ length centres <= length lidar)
  /\ (forall x b,
        rangecheck S754_nan x = false /\ rangecheck x S754_nan = false
        /\ rangecheck (S754_infinity b) x = false
        /\ rangecheck x (S754_infinity b) = false).
Proof.
  split; [apply vis_lidarpc_in_range | split].
  - intros centres H. apply vis_lidarpc_length in H.
    split; [exact H | ]. rewrite H. unfold in_range. apply filter_length_le.
  - intros x b. unfold rangecheck.
    repeat split; try reflexivity; try apply andb_false_r.
Qed.

(** Three rows, the middle one with a NaN. *)
Lemma vis_lidarpc_draws_rows_in_range_witness :
  vis_lidarpc [(f1, f2); (S754_nan, f1); (f0_0, f0_0)]
    = Ok [(300, 150); (250, 250)]%Z
  /\ length [(300, 150); (250, 250)]%Z
     = length (in_range [(f1, f2); (S754_nan, f1); (f0_0, f0_0)]).
Proof.
  split; [reflexivity | ].
  apply (proj1 (proj2 (vis_lidarpc_draws_rows_in_range
                         [(f1, f2); (S754_nan, f1); (f0_0, f0_0)]))).
  reflexivity.
Defined.

(** The pixel of an integer coordinate, for the integers in range, by
    computation on each of them. *)
Lemma scaled_integers :
  forallb
    (fun n =>
       float_lt (float_abs (float_of_int n)) (float_of_int 1000)
       && match scaled_x (float_of_int n), scaled_y (float_of_int n) with
          | Ok sx, Ok sy => (sx =? cx + 50 * n)%Z && (sy =? cy - 50 * n)%Z
          | _, _ => false
          end
       && is_binary64 (float_of_int n)
       && match int_of_float (float_of_int n) with
          | Ok i => (i =? n)%Z
          | _ => false
          end)
    (ints_from (-999) 1999) = true.
Proof. vm_compute. reflexivity. Qed.

Lemma scaled_integer (n : Z) :
  (-1000 < n < 1000)%Z ->
  float_lt (float_abs (float_of_int n)) (float_of_int 1000) = true
  /\ scaled_x (float_of_int n) = Ok (cx + 50 * n)%Z
  /\ scaled_y (float_of_int n) = Ok (cy - 50 * n)%Z
  /\ is_binary64 (float_of_int n) = true
  /\ int_of_float (float_of_int n) = Ok n.
Proof.
  intros Hn. pose proof scaled_integers as H.
  rewrite forallb_forall in H.
  specialize (H n (@ints_from_In (-999)%Z n 1999 ltac:(lia))).
  apply andb_prop in H. destruct H as [H Hint].
  apply andb_prop in H. destruct H as [H Hvalid].
  apply andb_prop in H. destruct H as [Hlt H]. split; [exact Hlt | ].
  destruct (scaled_x (float_of_int n)) as [sx | e | ]; try discriminate.
  destruct (scaled_y (float_of_int n)) as [sy | e | ]; try discriminate.
  apply andb_prop in H. destruct H as [Hx Hy].
  apply Z.eqb_eq in Hx, Hy. subst.
  destruct (int_of_float (float_of_int n)) as [i | e | ]; try discriminate.
  apply Z.eqb_eq in Hint. subst i.
  repeat split; try reflexivity. exact Hvalid.
Qed.

(** X8. For rows of integer coordinates strictly between -1000 and 1000
    [vis_lidarpc] returns, and the circle of the row (n, m) is centred on
    the pixel (250 + 50 n, 250 - 50 m): 50 pixels to the unit around the
    centre (250, 250), with the y axis pointing up. Every such row is
    drawn, in the order of the rows. (The floats of the rows are the
    binary64 numbers of these integer values.) *)
Theorem vis_lidarpc_integer_rows (pts : list (Z * Z)) :
  Forall (fun p => (-1000 < fst p < 1000)%Z /\ (-1000 < snd p < 1000)%Z) pts ->
  vis_lidarpc (map (fun p => (float_of_int (fst p), float_of_int (snd p))) pts)
  = Ok (map (fun p => (cx + 50 * fst p, cy - 50 * snd p)%Z) pts)
  /\ Forall (fun p => int_of_float (float_of_int (fst p)) = Ok (fst p)
                      /\ int_of_float (float_of_int (snd p)) = Ok (snd p)
                      /\ is_binary64 (float_of_int (fst p)) = true
                      /\ is_binary64 (float_of_int (snd p)) = true) pts.
Proof.
  induction 1 as [ | [n m] pts [Hn Hm] Hall [IH IHv]];
    [split; [reflexivity | constructor] | ].
  cbn [map vis_lidarpc fst snd] in *.
  destruct (scaled_integer Hn) as (Hrx & Hsx & _ & Hvx & Hix).
  destruct (scaled_integer Hm) as (Hry & _ & Hsy & Hvy & Hiy).
  split.
  - unfold rangecheck. rewrite Hrx, Hry, Hsx, Hsy. cbn [andb and_then].
    rewrite IH. reflexivity.
  - constructor; [cbn [fst snd]; repeat split; assumption | exact IHv].
Qed.

(** The rows (1, 2) and (-999, 999). *)
Lemma vis_lidarpc_integer_rows_witness :
  Forall (fun p => (-1000 < fst p < 1000)%Z /\ (-1000 < snd p < 1000)%Z)
         [(1, 2); (-999, 999)]%Z
  /\ vis_lidarpc (map (fun p => (float_of_int (fst p), float_of_int (snd p)))
                      [(1, 2); (-999, 999)]%Z)
     = Ok [(300, 150); (-49700, -49700)]%Z.
Proof.
  assert (H : Forall (fun p => (-1000 < fst p < 1000)%Z /\ (-1000 < snd p < 1000)%Z)
                     [(1, 2); (-999, 999)]%Z).
  { repeat constructor; cbn [fst snd]; lia. }
  split; [exact H | ].
  exact (proj1 (vis_lidarpc_integer_rows H)).
Defined.

End Drawing.

(* ================================================================== *)
(** ** How an observation ends, and the calls it makes *)

Module Calls.

Import Deque Np Airsim SIM_f110Env Samples Frames Tracing Polling.

Section WithSimulator.

Context {W : Type} {sim : Simulator W}.
Implicit Types (w : W) (t : list event) (fuel k n : nat)
               (action : dict float).

(** The state of [self] after the loop: some polls later. *)
Lemma poll_lidar_state fuel : forall (s : Env W),
  exists n, n <= fuel
            /\ snd (poll_lidar fuel s)
               = mk_env (after_polls n (client s)) (history s).
Proof.
  induction fuel as [ | fuel IH]; intros s.
  - exists 0. split; [lia | destruct s; reflexivity].
  - rewrite poll_lidar_round.
    destruct (3 <=? scalars 0 (client s)).
    + exists 1. split; [lia | reflexivity].
    + destruct (IH (mk_env (after_polls 1 (client s)) (history s)))
        as (n & Hn & Hs).
      exists (S n). split; [lia | ]. rewrite Hs. reflexivity.
Qed.

(** [_get_obs] with the frames written out. *)
Lemma _get_obs_cases fuel (s : Env W) :
  _get_obs fuel s =
    if forallb well_dimensioned (images_of (client s))
    then
      match poll_lidar fuel (mk_env (after_images (client s)) (history s)) with
      | (Ok ld, s') =>
          match process_lidar ld with
          | Ok pts =>
              (Ok (mk_obs pts placeholder
                     (map decoded (images_of (client s)))), s')
          | Raise e => (Raise e, s')
          | Spin => (Spin, s')
          end
      | (Raise e, s') => (Raise e, s')
      | (Spin, s') => (Spin, s')
      end
    else (Raise ValueError, mk_env (after_images (client s)) (history s)).
Proof.
  rewrite _get_obs_unfold, Images.map_raise_bytestr_to_np.
  destruct (forallb well_dimensioned (images_of (client s))); reflexivity.
Qed.

Lemma process_lidar_ragged (ld : LidarData) :
  length (point_cloud ld) mod 3 <> 0 -> process_lidar ld = Raise ValueError.
Proof.
  intros Hm. unfold process_lidar, pc_to_np.
  rewrite PointClouds.reshape_ragged by exact Hm. reflexivity.
Qed.

Lemma _get_obs_ragged fuel (s : Env W) :
  ragged_sample fuel (client s) ->
  fst (_get_obs fuel s) = Raise ValueError
  /\ history (snd (_get_obs fuel s)) = history s.
Proof.
  intros [Himgs (k & Hk & Hacc & Hm)].
  rewrite _get_obs_cases, Himgs.
  rewrite (@poll_lidar_finds _ _ k fuel
             (mk_env (after_images (client s)) (history s)) Hk Hacc).
  cbn [client history].
  rewrite process_lidar_ragged by exact Hm. split; reflexivity.
Qed.

(** X9. A first sample of at least 3 scalars whose length is not a
    multiple of 3 passes the polling loop and then fails in [pc_to_np]:
    [_get_obs] raises [ValueError], and so do [reset] and [step]; the
    history is left as it was. *)
Theorem ragged_sample_raises_ValueError fuel action (s : Env W) :
  (ragged_sample fuel (client s) ->
     fst (_get_obs fuel s) = Raise ValueError
     /\ history (snd (_get_obs fuel s)) = history s)
  /\ (ragged_sample fuel (elapse 1000 (Airsim.reset (client s))) ->
        fst (reset fuel s) = Raise ValueError
        /\ history (snd (reset fuel s)) = history s)
  /\ (ragged_sample fuel (actuated action (client s)) ->
        fst (step fuel action s) = Raise ValueError
        /\ history (snd (step fuel action s)) = history s).
Proof.
  split; [apply (@_get_obs_ragged fuel s) | split].
  - intros Hr.
    apply (@_get_obs_ragged fuel
             (mk_env (elapse 1000 (Airsim.reset (client s))) (history s)) Hr).
  - intros Hr.
    pose proof (@_get_obs_ragged fuel
                  (mk_env (actuated action (client s)) (history s)) Hr)
      as [Ho Hh].
    rewrite Interface.step_unfold.
    destruct (_get_obs fuel _) as [[obs | e | ] s']; cbn [fst snd] in *;
      try discriminate.
    inversion Ho. split; [reflexivity | exact Hh].
Qed.

(** X10. The images are decoded before the lidar is asked: when a
    response of the simulator is not well dimensioned, [_get_obs] raises
    [ValueError] without one call of [getLidarData], whatever the lidar
    would have answered, and so do [reset] and [step]. *)
Theorem bad_image_raises_before_lidar fuel action (s : Env W) :
  (forallb well_dimensioned (images_of (client s)) = false ->
     _get_obs fuel s
     = (Raise ValueError, mk_env (after_images (client s)) (history s)))
  /\ (forallb well_dimensioned
        (images_of (elapse 1000 (Airsim.reset (client s)))) = false ->
      reset fuel s
      = (Raise ValueError,
         mk_env (after_images (elapse 1000 (Airsim.reset (client s))))
                (history s)))
  /\ (forallb well_dimensioned
        (images_of (actuated action (client s))) = false ->
      step fuel action s
      = (Raise ValueError,
         mk_env (after_images (actuated action (client s))) (history s))).
Proof.
  split; [ | split].
  - intros Hb. rewrite _get_obs_cases, Hb. reflexivity.
  - intros Hb. rewrite Interface.reset_unfold, _get_obs_cases.
    cbn [client history]. rewrite Hb. reflexivity.
  - intros Hb. rewrite Interface.step_unfold, _get_obs_cases.
    cbn [client history]. rewrite Hb. reflexivity.
Qed.

(** X11. What [reset] and [step] return holds nothing of the lidar and
    nothing of the action: the observation is [None] for the lidar, the
    steer of three zeros, and one frame per image response of the
    simulator, decoded; [step] adds the reward 0, [False] and the empty
    dict. *)
Theorem returned_values_from_images_only fuel action (s : Env W) :
  (forall obs s',
      reset fuel s = (Ok obs, s') ->
      obs = mk_obs None placeholder
              (map decoded (images_of (elapse 1000 (Airsim.reset (client s))))))
  /\ (forall r s',
        step fuel action s = (Ok r, s') ->
        r = mk_step_result
              (mk_obs None placeholder
                 (map decoded (images_of (actuated action (client s)))))
              0 false []).
Proof.
  assert (Hobs : forall (s0 : Env W) obs s',
            _get_obs fuel s0 = (Ok obs, s') ->
            obs = mk_obs None placeholder (map decoded (images_of (client s0)))).
  { intros s0 obs s'. rewrite _get_obs_cases.
    destruct (forallb well_dimensioned (images_of (client s0))); try discriminate.
    destruct (poll_lidar fuel _) as [[ld | e | ] s'']; try discriminate.
    destruct (process_lidar ld) as [pts | e | ] eqn:Hp; try discriminate.
    apply process_lidar_returns_None in Hp. subst pts.
    intros H. inversion H. reflexivity. }
  split.
  - intros obs s'. rewrite Interface.reset_unfold. apply Hobs.
  - intros r s'. rewrite Interface.step_unfold.
    destruct (_get_obs fuel _) as [[obs | e | ] s''] eqn:Hg; try discriminate.
    apply Hobs in Hg. cbn [client] in Hg. subst obs.
    intros H. inversion H. reflexivity.
Qed.




End WithSimulator.

(** A lidar sample of four scalars, with a good image. *)
Lemma ragged_sample_raises_ValueError_witness :
  let s := __init__ (mock [] (mk_LidarData [f1; f2; f3; f1]) [image_2x2_12]) in
  ragged_sample 1 (actuated zero_action (client s))
  /\ fst (step 1 zero_action s) = Raise ValueError.
Proof.
  cbv zeta.
  assert (Hr : ragged_sample 1
            (actuated zero_action
               (client (__init__ (mock [] (mk_LidarData [f1; f2; f3; f1])
                                       [image_2x2_12]))))).
  { split; [reflexivity | ]. exists 0.
    split; [lia | split; [split; [intros j Hj; lia | vm_compute; lia] | discriminate]]. }
  split; [exact Hr | ].
  exact (proj1 (proj2 (proj2 (ragged_sample_raises_ValueError 1 zero_action
           (__init__ (mock [] (mk_LidarData [f1; f2; f3; f1]) [image_2x2_12]))))
           Hr)).
Defined.

(** A 2 x 2 image of 11 bytes, with a good lidar sample, and no round
    of the loop allowed. *)
Lemma bad_image_raises_before_lidar_witness :
  let s := __init__ (mock [] four_points [image_2x2_11]) in
  forallb well_dimensioned (images_of (client s)) = false
  /\ _get_obs 0 s
     = (Raise ValueError, mk_env (after_images (client s)) (history s)).
Proof.
  cbv zeta. split; [reflexivity | ].
  exact (proj1 (bad_image_raises_before_lidar 0 zero_action
           (__init__ (mock [] four_points [image_2x2_11]))) eq_refl).
Defined.

(** A step with a simulator that answers four points and one image. *)
Lemma returned_values_from_images_only_witness :
  let s := __init__ (mock [] four_points [image_2x2_12]) in
  let r := mk_step_result (mk_obs None placeholder [decoded image_2x2_12])
                          0 false [] in
  step 1 zero_action s = (Ok r, snd (step 1 zero_action s))
  /\ r = mk_step_result
           (mk_obs None placeholder
              (map decoded (images_of (actuated zero_action (client s)))))
           0 false [].
Proof.
  cbv zeta. split; [reflexivity | ].
  exact (proj2 (returned_values_from_images_only 1 zero_action
           (__init__ (mock [] four_points [image_2x2_12]))) _ _ eq_refl).
Defined.


End Calls.

(* ================================================================== *)
(** ** The calls that [reset] and [step] make *)

Module Traces.

Import Deque Np Airsim SIM_f110Env Samples Frames Tracing Polling.

Section WithSimulator.

Context {W : Type} {sim : Simulator W}.
Implicit Types (w : W) (t : list event) (fuel k n : nat)
               (action : dict float) (h : deque SteeringCommand).

Lemma traced_after_polls k : forall w t,
  after_polls k (w, t) = (after_polls k w, t ++ repeat EvGetLidarData k).
Proof.
  induction k as [ | k IH]; intros w t.
  - cbn [after_polls repeat]. rewrite app_nil_r. reflexivity.
  - cbn [after_polls repeat]. cbn [getLidarData Traced fst snd].
    rewrite IH, <- app_assoc. reflexivity.
Qed.

Lemma traced_sample k w t : sample k (w, t) = sample k w.
Proof. unfold sample. rewrite traced_after_polls. reflexivity. Qed.

Lemma traced_scalars k w t : scalars k (w, t) = scalars k w.
Proof. unfold scalars. rewrite traced_sample. reflexivity. Qed.

Lemma traced_first_accepted k w t :
  first_accepted k (w, t) <-> first_accepted k w.
Proof.
  unfold first_accepted. rewrite traced_scalars.
  split; intros [Hs Ha]; (split; [ | exact Ha]); intros j Hj;
    specialize (Hs j Hj); rewrite traced_scalars in *; exact Hs.
Qed.

(** Recording changes nothing of what the loop does. *)
Lemma traced_poll_lidar fuel : forall w t h,
  fst (poll_lidar fuel (mk_env (w, t) h)) = fst (poll_lidar fuel (mk_env w h))
  /\ fst (client (snd (poll_lidar fuel (mk_env (w, t) h))))
     = client (snd (poll_lidar fuel (mk_env w h))).
Proof.
  induction fuel as [ | fuel IH]; intros w t h; [split; reflexivity | ].
  rewrite !poll_lidar_round. cbn [client history].
  rewrite traced_scalars, traced_sample, traced_after_polls.
  destruct (3 <=? scalars 0 w); [split; reflexivity | ].
  apply IH.
Qed.

Lemma traced_get_obs fuel w t h :
  fst (_get_obs fuel (mk_env (w, t) h)) = fst (_get_obs fuel (mk_env w h)).
Proof.
  rewrite !Calls._get_obs_cases. cbn [client history].
  change (images_of (w, t)) with (images_of w).
  destruct (forallb well_dimensioned (images_of w)); [ | reflexivity].
  change (after_images (w, t))
    with (after_images w, t ++ [EvSimGetImages default_requests]).
  pose proof (traced_poll_lidar fuel (after_images w)
                (t ++ [EvSimGetImages default_requests]) h) as [Ho _].
  destruct (poll_lidar fuel (mk_env (after_images w, _) h)) as [o1 s1].
  destruct (poll_lidar fuel (mk_env (after_images w) h)) as [o2 s2].
  cbn [fst] in Ho. subst o2.
  destruct o1 as [ld | e | ]; try reflexivity.
  destruct (process_lidar ld); reflexivity.
Qed.

(** The calls of one observation: the images once, then the lidar, as
    many times as the loop has rounds. *)
Lemma _get_obs_calls fuel (s : Env (W * list event)) :
  exists n,
    n <= fuel
    /\ calls (snd (_get_obs fuel s))
       = calls s ++ [EvSimGetImages default_requests]
                 ++ repeat EvGetLidarData n
    /\ (forallb well_dimensioned (images_of (client s)) = false -> n = 0)
    /\ (forall obs, fst (_get_obs fuel s) = Ok obs ->
          exists k, n = S k /\ first_accepted k (after_images (client s))).
Proof.
  destruct s as [[w t] h]. unfold calls. cbn [client].
  rewrite Calls._get_obs_cases. cbn [client history].
  change (images_of (w, t)) with (images_of w).
  change (after_images (w, t))
    with (after_images w, t ++ [EvSimGetImages default_requests]).
  destruct (forallb well_dimensioned (images_of w)) eqn:Himgs.
  - destruct (poll_lidar fuel
                (mk_env (after_images w, t ++ [EvSimGetImages default_requests]) h))
      as [o s1] eqn:Hp.
    destruct (Calls.poll_lidar_state fuel
                (mk_env (after_images w, t ++ [EvSimGetImages default_requests]) h))
      as (n & Hn & Hs).
    rewrite Hp in Hs. cbn [snd client history] in Hs.
    rewrite traced_after_polls in Hs.
    exists n. split; [exact Hn | ].
    assert (Hcalls : snd (client s1)
              = t ++ [EvSimGetImages default_requests] ++ repeat EvGetLidarData n).
    { rewrite Hs. cbn [client snd]. rewrite <- app_assoc. reflexivity. }
    split; [ | split; [discriminate | ]].
    + destruct o as [ld | e | ]; [destruct (process_lidar ld) | | ]; exact Hcalls.
    + intros obs Hobs.
      destruct o as [ld | e | ]; try discriminate.
      apply poll_lidar_returns in Hp.
      destruct Hp as (k & Hk & Hacc & _ & Hs1). cbn [client history] in *.
      exists k. split; [ | exact Hacc].
      rewrite Hs1 in Hs. injection Hs as Hs.
      rewrite traced_after_polls in Hs. injection Hs as _ Ht.
      apply (f_equal (@length event)) in Ht.
      rewrite !length_app, !repeat_length in Ht. cbn [length] in Ht. lia.
  - exists 0. split; [lia | split; [ | split; [reflexivity | discriminate]]].
    cbn [snd client repeat]. rewrite app_nil_r. reflexivity.
Qed.

(** X13. The calls of one [step], in order: [setCarControls] with the
    speed of the action for throttle and its angle for steering ([None]
    for a key that is absent), a sleep of 10 ms, one [simGetImages] for
    the scene of "front_center", then [getLidarData] only, once per round
    of the loop: no call at all when an image does not decode, and as
    many calls as it takes to reach the first sample of at least 3
    scalars when [step] returns. [step] never calls [reset]. Recording
    the calls changes nothing of what [step] gives. *)
Theorem step_calls fuel action (s : Env (W * list event)) :
  fst (step fuel action s)
  = fst (step fuel action (mk_env (fst (client s)) (history s)))
  /\ exists n,
       n <= fuel
       /\ calls (snd (step fuel action s))
          = calls s ++ [EvSetCarControls (controls_of action); EvSleep 10;
                        EvSimGetImages default_requests]
                    ++ repeat EvGetLidarData n
       /\ (forallb well_dimensioned
             (images_of (actuated action (fst (client s)))) = false -> n = 0)
       /\ (forall r, fst (step fuel action s) = Ok r ->
             exists k, n = S k
                       /\ first_accepted k
                            (after_images (actuated action (fst (client s))))).
Proof.
  destruct s as [[w t] h]. cbn [client history fst].
  split.
  - rewrite !Interface.step_unfold. cbn [client history].
    change (actuated action (w, t))
      with (actuated action w,
            (t ++ [EvSetCarControls (controls_of action)]) ++ [EvSleep 10]).
    pose proof (traced_get_obs fuel (actuated action w)
                  ((t ++ [EvSetCarControls (controls_of action)]) ++ [EvSleep 10])
                  h) as Ho.
    destruct (_get_obs fuel (mk_env (actuated action w, _) h)) as [o1 s1].
    destruct (_get_obs fuel (mk_env (actuated action w) h)) as [o2 s2].
    cbn [fst] in Ho. subst o2. destruct o1; reflexivity.
  - destruct (_get_obs_calls fuel
                (mk_env (actuated action (w, t)) h))
      as (n & Hn & Hcalls & Hbad & Hok).
    exists n. split; [exact Hn | ].
    assert (Hsnd : calls (snd (step fuel action (mk_env (w, t) h)))
                   = calls (snd (_get_obs fuel (mk_env (actuated action (w, t)) h)))).
    { rewrite Interface.step_unfold. cbn [client history].
      destruct (_get_obs fuel _) as [[obs | e | ] s']; reflexivity. }
    split; [ | split].
    + rewrite Hsnd, Hcalls. unfold calls. cbn [client snd].
      change (snd (actuated action (w, t)))
        with ((t ++ [EvSetCarControls (controls_of action)]) ++ [EvSleep 10]).
      rewrite <- !app_assoc. reflexivity.
    + exact Hbad.
    + intros r Hr.
      assert (Hobs : exists obs,
                fst (_get_obs fuel (mk_env (actuated action (w, t)) h)) = Ok obs).
      { rewrite Interface.step_unfold in Hr. cbn [client history] in Hr.
        destruct (_get_obs fuel _) as [[obs | e | ] s']; try discriminate.
        exists obs. reflexivity. }
      destruct Hobs as [obs Hobs].
      destruct (Hok obs Hobs) as (k & Hk & Hacc).
      exists k. split; [exact Hk | ].
      cbn [client] in Hacc.
      change (after_images (actuated action (w, t)))
        with (after_images (actuated action w),
              ((t ++ [EvSetCarControls (controls_of action)]) ++ [EvSleep 10])
                ++ [EvSimGetImages default_requests]) in Hacc.
      apply traced_first_accepted in Hacc. exact Hacc.
Qed.

(** X14. The calls of one [reset], in order: [reset] of the simulator, a
    sleep of 1000 ms, one [simGetImages] for the scene of "front_center",
    then [getLidarData] only, once per round of the loop, as for [step].
    [reset] never sets the car controls. Recording the calls changes
    nothing of what [reset] gives. *)
Theorem reset_calls_in_order fuel (s : Env (W * list event)) :
  fst (SIM_f110Env.reset fuel s)
  = fst (SIM_f110Env.reset fuel (mk_env (fst (client s)) (history s)))
  /\ exists n,
       n <= fuel
       /\ calls (snd (SIM_f110Env.reset fuel s))
          = calls s ++ [EvReset; EvSleep 1000;
                        EvSimGetImages default_requests]
                    ++ repeat EvGetLidarData n
       /\ (forallb well_dimensioned
             (images_of (elapse 1000 (Airsim.reset (fst (client s))))) = false ->
           n = 0)
       /\ (forall obs, fst (SIM_f110Env.reset fuel s) = Ok obs ->
             exists k, n = S k
                       /\ first_accepted k
                            (after_images
                               (elapse 1000 (Airsim.reset (fst (client s)))))).
Proof.
  destruct s as [[w t] h]. cbn [client history fst].
  rewrite !Interface.reset_unfold. cbn [client history].
  change (elapse 1000 (Airsim.reset (w, t)))
    with (elapse 1000 (Airsim.reset w), (t ++ [EvReset]) ++ [EvSleep 1000]).
  split; [apply traced_get_obs | ].
  destruct (_get_obs_calls fuel
              (mk_env (elapse 1000 (Airsim.reset w),
                       (t ++ [EvReset]) ++ [EvSleep 1000]) h))
    as (n & Hn & Hcalls & Hbad & Hok).
  exists n. split; [exact Hn | split; [ | split]].
  - rewrite Hcalls. unfold calls. cbn [client snd].
    rewrite <- !app_assoc. reflexivity.
  - exact Hbad.
  - intros obs Hobs. destruct (Hok obs Hobs) as (k & Hk & Hacc).
    exists k. split; [exact Hk | ].
    cbn [client] in Hacc.
    change (after_images (elapse 1000 (Airsim.reset w),
                          (t ++ [EvReset]) ++ [EvSleep 1000]))
      with (after_images (elapse 1000 (Airsim.reset w)),
            ((t ++ [EvReset]) ++ [EvSleep 1000])
              ++ [EvSimGetImages default_requests]) in Hacc.
    apply traced_first_accepted in Hacc. exact Hacc.
Qed.

End WithSimulator.

(** A step on a new environment whose simulator answers 2 scalars and
    then four points: two polls. *)
Lemma step_calls_witness :
  let s := __init__ (mock [two_scalars] four_points [image_2x2_12], []) in
  fst (step 2 zero_action s)
    = Ok (mk_step_result (mk_obs None placeholder [decoded image_2x2_12])
                         0 false [])
  /\ calls (snd (step 2 zero_action s))
     = [EvConfirmConnection; EvEnableApiControl true;
        EvSetCarControls (mk_CarControls (Some f0_0) (Some f0_0));
        EvSleep 10; EvSimGetImages default_requests;
        EvGetLidarData; EvGetLidarData]
  /\ exists k,
       first_accepted k
         (after_images (actuated zero_action (fst (client s)))).
Proof.
  cbv zeta. split; [reflexivity | split; [reflexivity | ]].
  destruct (proj2 (step_calls 2 zero_action
              (__init__ (mock [two_scalars] four_points [image_2x2_12], []))))
    as (n & _ & _ & _ & Hok).
  destruct (Hok _ eq_refl) as (k & _ & Hacc).
  exists k. exact Hacc.
Defined.

(** A reset on the same environment. *)
Lemma reset_calls_in_order_witness :
  let s := __init__ (mock [two_scalars] four_points [image_2x2_12], []) in
  fst (SIM_f110Env.reset 2 s)
    = Ok (mk_obs None placeholder [decoded image_2x2_12])
  /\ calls (snd (SIM_f110Env.reset 2 s))
     = [EvConfirmConnection; EvEnableApiControl true;
        EvReset; EvSleep 1000; EvSimGetImages default_requests;
        EvGetLidarData; EvGetLidarData]
  /\ exists k,
       first_accepted k
         (after_images (elapse 1000 (Airsim.reset (fst (client s))))).
Proof.
  cbv zeta. split; [reflexivity | split; [reflexivity | ]].
  destruct (proj2 (reset_calls_in_order 2
              (__init__ (mock [two_scalars] four_points [image_2x2_12], []))))
    as (n & _ & _ & _ & Hok).
  destruct (Hok _ eq_refl) as (k & _ & Hacc).
  exists k. exact Hacc.
Defined.

End Traces.
